(** * The letter generation endpoint of [server_with_profanity_list.py]

    A shallow embedding of the Flask handler [generate_letter]: request
    parsing with field defaults, the letter/Hangul presence check, the
    profanity screening over the raw text and its MeCab tokens, the prompt
    templates, the accumulation of the streamed completion, and the mapping
    of every outcome to an HTTP response.

    Python [str] values are sequences of Unicode code points; the external
    collaborators (MeCab, the iteration order of a Python [set], Python's
    [str()] on decoded JSON, the OpenAI client) are fields of a [runtime]
    record, the tokenizer and the client may raise, and every call that
    leaves the process is recorded in a trace. *)

From Stdlib Require Import NArith ZArith QArith String Ascii.
From stdpp Require Import base option list.

Local Close Scope Q_scope.
Local Open Scope list_scope.

(** ** Text *)

(** A Python [str]: the sequence of its code points. *)
Abbreviation str := (list N).

(** Source literals are written as UTF-8 byte strings and decoded once. *)
Fixpoint utf8_decode (bs : list N) : str :=
  match bs with
  | [] => []
  | b0 :: r0 =>
    if (b0 <? 128)%N then b0 :: utf8_decode r0
    else if (b0 <? 224)%N then
      match r0 with
      | b1 :: r1 => ((b0 - 192) * 64 + (b1 - 128))%N :: utf8_decode r1
      | _ => []
      end
    else if (b0 <? 240)%N then
      match r0 with
      | b1 :: b2 :: r2 =>
        ((b0 - 224) * 4096 + (b1 - 128) * 64 + (b2 - 128))%N :: utf8_decode r2
      | _ => []
      end
    else
      match r0 with
      | b1 :: b2 :: b3 :: r3 =>
        ((b0 - 240) * 262144 + (b1 - 128) * 4096 + (b2 - 128) * 64
         + (b3 - 128))%N :: utf8_decode r3
      | _ => []
      end
  end.

Definition lit (s : string) : str :=
  utf8_decode (N_of_ascii <$> list_ascii_of_string s).

(** The line feed of the ["\n"] escapes. *)
Definition nl : str := [10%N].

(** [str(n)] for a Python [int]. *)
Fixpoint str_of_uint (d : Decimal.uint) : str :=
  match d with
  | Decimal.Nil => []
  | Decimal.D0 r => 48%N :: str_of_uint r
  | Decimal.D1 r => 49%N :: str_of_uint r
  | Decimal.D2 r => 50%N :: str_of_uint r
  | Decimal.D3 r => 51%N :: str_of_uint r
  | Decimal.D4 r => 52%N :: str_of_uint r
  | Decimal.D5 r => 53%N :: str_of_uint r
  | Decimal.D6 r => 54%N :: str_of_uint r
  | Decimal.D7 r => 55%N :: str_of_uint r
  | Decimal.D8 r => 56%N :: str_of_uint r
  | Decimal.D9 r => 57%N :: str_of_uint r
  end.

Definition str_of_int (n : Z) : str :=
  match Z.to_int n with
  | Decimal.Pos d => str_of_uint d
  | Decimal.Neg d => 45%N :: str_of_uint d
  end.

(** The character class [[A-Za-z가-힣]]: basic Latin letters and the Hangul
    syllable block U+AC00..U+D7A3. *)
Definition is_letter (c : N) : bool :=
  ((65 <=? c) && (c <=? 90) || (97 <=? c) && (c <=? 122)
   || (44032 <=? c) && (c <=? 55203))%N.

(** [re.search(r"[A-Za-z가-힣]", text)] as a truth value. *)
Definition re_search_letter (text : str) : bool := existsb is_letter text.

(** [text.startswith(word)], the inner loop of the substring test. *)
Fixpoint starts_with (text word : str) {struct word} : bool :=
  match word, text with
  | [], _ => true
  | _ :: _, [] => false
  | a :: word', b :: text' => (a =? b)%N && starts_with text' word'
  end.

(** [word in text] on two [str] values: [word] occurs at some offset. *)
Fixpoint str_contains (text word : str) : bool :=
  starts_with text word ||
  match text with
  | [] => false
  | _ :: text' => str_contains text' word
  end.

(** [sep.join(words)]. *)
Fixpoint join (sep : str) (words : list str) : str :=
  match words with
  | [] => []
  | [w] => w
  | w :: rest => w ++ sep ++ join sep rest
  end.

(** ** Decoded JSON and the request *)

(** What [json.loads] builds. A [float] is kept as the 64 bits of its
    double; a [dict] as its items in insertion order. *)
#[warnings="-register-all"]
Inductive json :=
  | JNull
  | JBool (b : bool)
  | JNum (n : Z)
  | JFloat (bits : N)
  | JStr (s : str)
  | JArr (items : list json)
  | JObj (items : list (str * json)).

(** The value under [key] in the items of a [dict]. Keys of a [dict] are
    distinct; were a key repeated in the body, [json.loads] keeps the last
    value, and so does the lookup. *)
Fixpoint dict_lookup (key : str) (items : list (str * json)) : option json :=
  match items with
  | [] => None
  | (k, v) :: rest =>
    match dict_lookup key rest with
    | Some v' => Some v'
    | None => if decide (k = key) then Some v else None
    end
  end.

(** What [request.json] finds in the request. *)
Inductive request :=
  | NotJson              (* the content type does not announce JSON *)
  | Malformed            (* the body is not a JSON document *)
  | Json (data : json).

(** The exceptions that can reach the handler's [except Exception]. *)
Inductive exn :=
  | UnsupportedMediaType
  | BadRequest
  | AttributeError
  | TypeError
  | IndexError
  | UnicodeEncodeError
  | APIError (message : str).

(** How a call ends: with a value, or with an exception. *)
Inductive outcome (A : Type) :=
  | Done (a : A)
  | Raised (e : exn).
Arguments Done {A} a.
Arguments Raised {A} e.

(** ** The generation service *)

Record message := Message { role : str; content : str }.

Record chat_request := ChatRequest {
  model : str;
  messages : list message;
  temperature : Q;
  max_tokens : Z;
  stream : bool
}.

Record choice_delta := Delta { delta_content : option str }.
Record choice := Choice { delta : option choice_delta }.
(** [choices] is a list, or [None] in a chunk that carries none. *)
Record chat_chunk := Chunk { choices : option (list choice) }.

(** The object returned by [client.chat.completions.create(..., stream=True)]
    as the handler sees it: chunks in arrival order, ended by the end of the
    stream or by an exception of the client (raised by [create] itself when
    it comes first). *)
Inductive chat_stream :=
  | StreamEnd
  | StreamChunk (chunk : chat_chunk) (rest : chat_stream)
  | StreamError (e : exn).

(** ** The response *)

Inductive response_body :=
  | Envelope (isSuccessful : bool) (result : str)
  | ErrorBody (error : exn).        (* [{"error": str(e)}] *)

Record response := Response { status : Z; body : response_body }.

(** [jsonify(...)] alone answers with status 200. *)
Definition jsonify (b : response_body) : response := Response 200 b.

(** ** What the handler does not compute itself *)

Record runtime := Runtime {
  py_str : json → str;                        (* [str(x)] inside an f-string *)
  tagger_morphs : str → outcome (list str);   (* [tagger.morphs] *)
  list_of_set : list str → list str;          (* [list(set(words))] *)
  chat_completions_create : chat_request → chat_stream
}.

(** [tagger.morphs] returns the tokens of a text or raises, as it does on
    a text that cannot be encoded for MeCab (a lone surrogate); the stream
    of the client carries its exceptions itself.

    The two facts about Python that the handler relies on: formatting a
    [str] leaves it as it is, and a set keeps one copy of every element,
    in an order of its own. *)
Record runtime_ok (rt : runtime) : Prop := RuntimeOk {
  py_str_str : ∀ s, py_str rt (JStr s) = s;
  list_of_set_perm : ∀ words, list_of_set rt words ≡ₚ remove_dups words
}.

(** ** Effects: exceptions and the trace of outside calls *)

Inductive level := INFO | WARNING | ERROR.

Inductive call :=
  | Log (lvl : level)
  | Morphs (text : str)
  | ChatCreate (req : chat_request).

Definition M (A : Type) : Type := list call → outcome A * list call.

#[global] Instance M_ret : MRet M := λ A a tr, (Done a, tr).

#[global] Instance M_bind : MBind M := λ A B f m tr,
  match m tr with
  | (Done a, tr') => f a tr'
  | (Raised e, tr') => (Raised e, tr')
  end.

Definition raise {A} (e : exn) : M A := λ tr, (Raised e, tr).

Definition emit (c : call) : M unit := λ tr, (Done (), tr ++ [c]).

Definition lift {A} (o : outcome A) : M A := λ tr, (o, tr).

(** [try: body except Exception as e: handler(e)]. *)
Definition try_except {A} (body : M A) (handler : exn → M A) : M A := λ tr,
  match body tr with
  | (Done a, tr') => (Done a, tr')
  | (Raised e, tr') => handler e tr'
  end.

Definition is_morphs (c : call) : bool :=
  match c with Morphs _ => true | _ => false end.

Definition is_chat (c : call) : bool :=
  match c with ChatCreate _ => true | _ => false end.

(** ** The handler, stage by stage *)

(** [request.json]: werkzeug raises when the content type is not JSON or
    the body does not parse. *)
Definition request_json (req : request) : M json :=
  match req with
  | NotJson => raise UnsupportedMediaType
  | Malformed => raise BadRequest
  | Json data => mret data
  end.

(** [data.get(key, dflt)]: only a [dict] has the method. *)
Definition get (data : json) (key : str) (dflt : json) : M json :=
  match data with
  | JObj items => mret (default dflt (dict_lookup key items))
  | _ => raise AttributeError
  end.

(** The three locals bound by lines 46-48. A value found under a key is
    taken as it is, whatever its JSON type. *)
Record generation_request := GenerationRequest {
  author : json;
  documentType : json;
  scenario : json
}.

Definition parse_request (req : request) : M generation_request :=
  data ← request_json req;
  author ← get data (lit "author") (JStr (lit "무명 작가"));
  documentType ← get data (lit "documentType") (JStr (lit "단문"));
  scenario ← get data (lit "scenario") (JStr (lit "주제 없음"));
  mret (GenerationRequest author documentType scenario).

(** The list comprehension of lines 70-74; the list loaded from
    [korean_profanity_v1.0.1.json] is taken to hold strings. *)
Definition found_words (profanity_list : list str) (scenario : str)
    (scenario_tokens : list str) : list str :=
  filter (λ word, str_contains scenario word
                  || bool_decide (word ∈ scenario_tokens))
         profanity_list.

(** Lines 67-77: tokenize, match, remove duplicates. An exception of the
    tokenizer leaves the [try] block from here. *)
Definition screen (rt : runtime) (profanity_list : list str) (scenario : str)
    : M (list str) :=
  _ ← emit (Morphs scenario);
  scenario_tokens ← lift (tagger_morphs rt scenario);
  mret (list_of_set rt (found_words profanity_list scenario scenario_tokens)).

Definition token_limit : Z := 512.

Definition system_prompt (token_limit : Z) : str :=
  lit "당신은 사용자가 요청한 특정 작가의 문체와 감성을 정밀하게 재현할 수 있는 글쓰기 전문 AI 보조입니다. "
  ++ str_of_int token_limit
  ++ lit "토큰을 초과하지 않는 범위에서 하나의 단락으로 구성된 글을 작성하되 "
  ++ lit "글이 중간에 끊기지 않고 완결된 문장으로 마무리되도록 해 주세요. "
  ++ lit "글이 너무 길어질 것 같다면 요약하되, 마지막 문장은 반드시 문장 부호를 포함하여 완전히 끝맺어야 합니다. "
  ++ lit "작가의 대표적인 작품 분위기, 문체적 특징 및 표현 방식을 명확히 반영해 주세요. "
  ++ lit "단, 텍스트 이외의 생성형 이미지나 사진, 그림 등 시각적 콘텐츠는 생성하거나 요청해서는 안 됩니다.".

(** [author] and [documentType] go through [str()]; [scenario] is a [str]
    by the time the prompt is built and is inserted as it is. *)
Definition user_prompt (py_str : json → str) (author documentType : json)
    (scenario : str) : str :=
  lit "다음 조건에 따라 글을 작성해 주세요." ++ nl ++ nl
  ++ lit "- 작가: " ++ py_str author ++ nl
  ++ lit "- 글의 종류: " ++ py_str documentType ++ nl
  ++ lit "- 글의 주제 및 상황: " ++ scenario ++ nl ++ nl
  ++ lit "조건의 설명을 포함하지 말고, 글만 생성해야 합니다."
  ++ lit "글이 중간에 끊기지 않고, 마지막 문장까지 매끄럽게 이어져야 합니다.".

(** The keyword arguments of lines 110-120. *)
Definition completion_request (system_prompt user_prompt : str)
    : chat_request :=
  {| model := lit "gpt-4o-mini";
     messages := [ Message (lit "system") system_prompt;
                   Message (lit "user") user_prompt ];
     temperature := Qmake 7 10;
     max_tokens := token_limit;
     stream := true |}.

Definition create (rt : runtime) (req : chat_request) : M chat_stream :=
  _ ← emit (ChatCreate req);
  mret (chat_completions_create rt req).

(** [delta and delta.content]: the text to append, when there is one. *)
Definition truthy_content (delta : option choice_delta) : option str :=
  match delta with
  | Some {| delta_content := Some (c :: text) |} => Some (c :: text)
  | _ => None
  end.

(** The loop of lines 122-126; [chunk.choices[0]] raises [IndexError] on
    an empty list and [TypeError] on [None]. *)
Fixpoint consume (chat : chat_stream) (generated_text : str) : outcome str :=
  match chat with
  | StreamEnd => Done generated_text
  | StreamError e => Raised e
  | StreamChunk chunk rest =>
    match choices chunk with
    | None => Raised TypeError
    | Some [] => Raised IndexError
    | Some (choice0 :: _) =>
      match truthy_content (delta choice0) with
      | Some text => consume rest (generated_text ++ text)
      | None => consume rest generated_text
      end
    end
  end.

Definition elaborate_message : str :=
  lit "당신의 이야기를 조금만 더 들려주실 수 있나요?".

Definition profanity_prefix : str :=
  lit "민감한 표현의 단어가 포함되었습니다. : ".

(** The body of the [try] block. *)
Definition generate_letter_try (rt : runtime) (profanity_list : list str)
    (req : request) : M response :=
  '(GenerationRequest author documentType scenario) ← parse_request req;
  _ ← emit (Log INFO);
  match scenario with
  | JStr scenario =>
    if negb (re_search_letter scenario) then
      _ ← emit (Log WARNING);
      mret (jsonify (Envelope false elaborate_message))
    else
      found_words ← screen rt profanity_list scenario;
      match found_words with
      | _ :: _ =>
        _ ← emit (Log WARNING);
        let response_words := join (lit ", ") found_words in
        mret (jsonify (Envelope false (profanity_prefix ++ response_words)))
      | [] =>
        let system_prompt := system_prompt token_limit in
        let user_prompt :=
          user_prompt (py_str rt) author documentType scenario in
        chat ← create rt (completion_request system_prompt user_prompt);
        generated_text ← lift (consume chat []);
        mret (jsonify (Envelope true generated_text))
      end
  | _ => raise TypeError       (* [re.search] on a value that is no [str] *)
  end.

(** [generate_letter]: the [try] block and its [except Exception]. *)
Definition generate_letter (rt : runtime) (profanity_list : list str)
    (req : request) : M response :=
  try_except (generate_letter_try rt profanity_list req)
    (λ e, _ ← emit (Log ERROR); mret (Response 500 (ErrorBody e))).

(** A handler run from an empty trace. *)
Definition run {A} (m : M A) : outcome A * list call := m [].

(** ** Vocabulary of the statements *)

Definition latin_letter (c : N) : Prop :=
  (65 ≤ c ≤ 90 ∨ 97 ≤ c ≤ 122)%N.

Definition hangul_syllable (c : N) : Prop :=
  (0xAC00 ≤ c ≤ 0xD7A3)%N.

(** [word] occurs verbatim in [text]: same code points, contiguous. *)
Definition occurs_in (word text : str) : Prop :=
  ∃ pre post, text = pre ++ word ++ post.

(** A lexicon term found by the substring check or by the token check. *)
Definition matched (lexicon : list str) (scenario : str) (tokens : list str)
    (word : str) : Prop :=
  word ∈ lexicon ∧ (occurs_in word scenario ∨ word ∈ tokens).

(** The request parses to these three values. *)
Definition parses_to (req : request) (author documentType scenario : json)
    : Prop :=
  fst (run (parse_request req))
  = Done (GenerationRequest author documentType scenario).

(** The text a chunk contributes, and the chunks of a stream in arrival
    order. *)
Definition fragment (chunk : chat_chunk) : str :=
  match choices chunk with
  | Some (choice0 :: _) => default [] (truthy_content (delta choice0))
  | _ => []
  end.

Fixpoint chunks (chat : chat_stream) : list chat_chunk :=
  match chat with
  | StreamChunk chunk rest => chunk :: chunks rest
  | _ => []
  end.

Definition fragments (chat : chat_stream) : list str :=
  fragment <$> chunks chat.

(** The calls to the generation service in a trace. *)
Definition chat_calls (tr : list call) : list call :=
  List.filter is_chat tr.

Definition morphs_calls (tr : list call) : list call :=
  List.filter is_morphs tr.

(** ** A concrete runtime, for examples *)

(** A tokenizer that cuts at spaces. *)
Fixpoint split_spaces (word text : str) : list str :=
  match text with
  | [] => match word with [] => [] | _ => [word] end
  | c :: text' =>
    if (c =? 32)%N
    then match word with
         | [] => split_spaces [] text'
         | _ => word :: split_spaces [] text'
         end
    else split_spaces (word ++ [c]) text'
  end.

Definition demo_str (x : json) : str :=
  match x with
  | JStr s => s
  | JNum n => str_of_int n
  | JBool true => lit "True"
  | JBool false => lit "False"
  | JNull => lit "None"
  | _ => lit "..."
  end.

(** It raises on a text with a surrogate code point, as the binding of
    MeCab does when it encodes the text. *)
Definition is_surrogate (c : N) : bool := ((0xD800 <=? c) && (c <=? 0xDFFF))%N.

Definition demo_morphs (text : str) : outcome (list str) :=
  if existsb is_surrogate text then Raised UnicodeEncodeError
  else Done (split_spaces [] text).

Definition demo_stream : chat_stream :=
  StreamChunk (Chunk (Some [Choice (Some (Delta None))]))
  (StreamChunk (Chunk (Some [Choice (Some (Delta (Some (lit "봄이 "))))]))
  (StreamChunk (Chunk (Some [Choice (Some (Delta (Some [])))]))
  (StreamChunk (Chunk (Some [Choice (Some (Delta (Some (lit "왔다."))));
                             Choice (Some (Delta (Some (lit "x"))))]))
  (StreamChunk (Chunk (Some [Choice None])) StreamEnd)))).

Definition demo_runtime : runtime :=
  {| py_str := demo_str;
     tagger_morphs := demo_morphs;
     list_of_set := remove_dups;
     chat_completions_create := λ _, demo_stream |}.

(** The same process with another hash seed and another completion. *)
Definition other_runtime : runtime :=
  {| py_str := demo_str;
     tagger_morphs := demo_morphs;
     list_of_set := λ words, reverse (remove_dups words);
     chat_completions_create := λ _, StreamError (APIError (lit "quota")) |}.

(** The body [{"scenario": text}]. *)
Definition scenario_only (text : str) : request :=
  Json (JObj [(lit "scenario", JStr text)]).

(** ** The exits of the handler

    One constructor per way through [generate_letter]: what was decided on
    the way, the response, and the trace of a run from the empty trace. *)
Inductive exit (rt : runtime) (lexicon : list str) (req : request)
    : outcome response * list call → Prop :=
  | exit_unparseable e :
      fst (run (parse_request req)) = Raised e →
      exit rt lexicon req
        (Done (Response 500 (ErrorBody e)), [Log ERROR])
  | exit_not_text a d sc :
      parses_to req a d sc →
      (∀ s, sc ≠ JStr s) →
      exit rt lexicon req
        (Done (Response 500 (ErrorBody TypeError)), [Log INFO; Log ERROR])
  | exit_invalid_scenario a d s :
      parses_to req a d (JStr s) →
      re_search_letter s = false →
      exit rt lexicon req
        (Done (Response 200 (Envelope false elaborate_message)),
         [Log INFO; Log WARNING])
  | exit_tokenizer_failed a d s e :
      parses_to req a d (JStr s) →
      re_search_letter s = true →
      tagger_morphs rt s = Raised e →
      exit rt lexicon req
        (Done (Response 500 (ErrorBody e)),
         [Log INFO; Morphs s; Log ERROR])
  | exit_profanity a d s tokens w ws :
      parses_to req a d (JStr s) →
      re_search_letter s = true →
      tagger_morphs rt s = Done tokens →
      list_of_set rt (found_words lexicon s tokens) = w :: ws →
      exit rt lexicon req
        (Done (Response 200
                 (Envelope false
                    (profanity_prefix ++ join (lit ", ") (w :: ws)))),
         [Log INFO; Morphs s; Log WARNING])
  | exit_completed a d s tokens text :
      parses_to req a d (JStr s) →
      re_search_letter s = true →
      tagger_morphs rt s = Done tokens →
      list_of_set rt (found_words lexicon s tokens) = [] →
      consume (chat_completions_create rt
                 (completion_request (system_prompt token_limit)
                    (user_prompt (py_str rt) a d s))) [] = Done text →
      exit rt lexicon req
        (Done (Response 200 (Envelope true text)),
         [Log INFO; Morphs s;
          ChatCreate (completion_request (system_prompt token_limit)
                        (user_prompt (py_str rt) a d s))])
  | exit_generation_failed a d s tokens e :
      parses_to req a d (JStr s) →
      re_search_letter s = true →
      tagger_morphs rt s = Done tokens →
      list_of_set rt (found_words lexicon s tokens) = [] →
      consume (chat_completions_create rt
                 (completion_request (system_prompt token_limit)
                    (user_prompt (py_str rt) a d s))) [] = Raised e →
      exit rt lexicon req
        (Done (Response 500 (ErrorBody e)),
         [Log INFO; Morphs s;
          ChatCreate (completion_request (system_prompt token_limit)
                        (user_prompt (py_str rt) a d s));
          Log ERROR]).

(** ** Streams and runtimes of the further properties *)

(** The stream that delivers [delivered] and then goes on as [rest]. *)
Definition stream_of (delivered : list chat_chunk) (rest : chat_stream)
    : chat_stream :=
  foldr StreamChunk rest delivered.

(** [chunk.choices[0]] exists. *)
Definition has_choice (chunk : chat_chunk) : Prop :=
  ∃ choice0 others, choices chunk = Some (choice0 :: others).

(** The same stream with every chunk cut down to its first choice. *)
Fixpoint first_choices (chat : chat_stream) : chat_stream :=
  match chat with
  | StreamChunk chunk rest =>
    StreamChunk (Chunk (take 1 <$> choices chunk)) (first_choices rest)
  | _ => chat
  end.

(** The demo runtime with a service that answers every request with
    [chat]. *)
Definition demo_runtime_with (chat : chat_stream) : runtime :=
  {| py_str := demo_str;
     tagger_morphs := demo_morphs;
     list_of_set := remove_dups;
     chat_completions_create := λ _, chat |}.

(** ** Proof steps *)

(** Unfolds the monad and the stages of the handler, and nothing else. *)
Ltac run_monad :=
  cbv beta iota delta
    [mbind mret M_bind M_ret raise emit lift try_except run fst snd
     request_json get parse_request screen create
     generate_letter_try generate_letter].

(** Settles a statement about every code point of a literal. *)
Ltac each_code_point :=
  apply Forall_forall; vm_compute lit; repeat constructor;
  unfold latin_letter, hangul_syllable; lia.

(** Refutes that a call is in a trace of other calls. *)
Ltac in_trace H :=
  repeat (apply elem_of_cons in H as [H|H]; [try discriminate H|]);
  try (apply elem_of_nil in H; destruct H).

(** Settles one side of an equivalence between a log record and an
    outcome. *)
Ltac settle_log :=
  split; intros H;
  first
    [ solve [in_trace H]
    | solve [discriminate H]
    | solve [match type of H with
             | ex _ => destruct H as [result H]; discriminate H
             end]
    | solve [reflexivity]
    | solve [eexists; reflexivity]
    | solve [left]
    | solve [right; left]
    | solve [right; right; left]
    | solve [right; right; right; left] ].

(** * Properties *)

(** ** Text *)

Section text.
Implicit Types (text word pre post : str) (c : N).

Lemma is_letter_spec c :
  is_letter c = true ↔ latin_letter c ∨ hangul_syllable c.
Proof.
  unfold is_letter, latin_letter, hangul_syllable.
  rewrite !orb_true_iff, !andb_true_iff, !N.leb_le. tauto.
Qed.

Lemma re_search_letter_spec text :
  re_search_letter text = true
  ↔ ∃ c, c ∈ text ∧ (latin_letter c ∨ hangul_syllable c).
Proof.
  unfold re_search_letter. rewrite existsb_exists. split.
  - intros (c & Hin & Hc). exists c.
    by rewrite list_elem_of_In, <- is_letter_spec.
  - intros (c & Hin & Hc). exists c.
    by rewrite <- list_elem_of_In, is_letter_spec.
Qed.

Lemma re_search_letter_none text :
  (∀ c, c ∈ text → ¬ latin_letter c ∧ ¬ hangul_syllable c) →
  re_search_letter text = false.
Proof.
  intros Hnone. apply not_true_is_false.
  rewrite re_search_letter_spec. intros (c & Hin & Hc).
  destruct (Hnone c Hin). tauto.
Qed.

Lemma starts_with_spec text word :
  starts_with text word = true ↔ ∃ post, text = word ++ post.
Proof.
  revert text. induction word as [|a word IH]; intros text; simpl.
  - split; [by exists text|done].
  - destruct text as [|b text].
    + split; [done|]. by intros (post & ?).
    + rewrite andb_true_iff, N.eqb_eq, IH. split.
      * intros (-> & post & ->). by exists post.
      * intros (post & [= -> ->]). split; [done|by exists post].
Qed.

Lemma str_contains_spec text word :
  str_contains text word = true ↔ occurs_in word text.
Proof.
  unfold occurs_in. induction text as [|b text IH].
  - simpl. rewrite orb_false_r, starts_with_spec. split.
    + intros (post & ->). by exists [], post.
    + intros (pre & post & Heq). symmetry in Heq.
      apply app_eq_nil in Heq as [-> Heq]. exists post. by rewrite Heq.
  - change (str_contains (b :: text) word)
      with (starts_with (b :: text) word || str_contains text word).
    rewrite orb_true_iff, starts_with_spec, IH. split.
    + intros [(post & ->)|(pre & post & ->)].
      * by exists [], post.
      * by exists (b :: pre), post.
    + intros ([|b' pre] & post & Heq); simpl in Heq.
      * left. by exists post.
      * right. injection Heq as -> ->. by exists pre, post.
Qed.
End text.

(** ** Running the handler *)

Section run.
Context (rt : runtime) (profanity_list : list str).
Implicit Types (req : request) (tr : list call) (s : str)
  (a d sc : json) (e : exn).

(** Parsing writes nothing to the trace. *)
Lemma parse_request_trace req tr :
  parse_request req tr = (fst (run (parse_request req)), tr).
Proof. destruct req as [| |[]]; reflexivity. Qed.

Lemma parse_request_object (items : list (str * json)) tr :
  parse_request (Json (JObj items)) tr
  = (Done (GenerationRequest
             (default (JStr (lit "무명 작가")) (dict_lookup (lit "author") items))
             (default (JStr (lit "단문"))
                (dict_lookup (lit "documentType") items))
             (default (JStr (lit "주제 없음"))
                (dict_lookup (lit "scenario") items))),
     tr).
Proof. reflexivity. Qed.

Lemma screen_run s tr :
  screen rt profanity_list s tr
  = match tagger_morphs rt s with
    | Done tokens =>
      (Done (list_of_set rt (found_words profanity_list s tokens)),
       tr ++ [Morphs s])
    | Raised e => (Raised e, tr ++ [Morphs s])
    end.
Proof.
  unfold screen. run_monad. destruct (tagger_morphs rt s); reflexivity.
Qed.

(** The [except] clause turns every exception into a 500 response. *)
Lemma generate_letter_unfold req tr :
  generate_letter rt profanity_list req tr
  = match generate_letter_try rt profanity_list req tr with
    | (Done r, tr') => (Done r, tr')
    | (Raised e, tr') => (Done (Response 500 (ErrorBody e)), tr' ++ [Log ERROR])
    end.
Proof. reflexivity. Qed.

Lemma try_parse_error req e tr :
  fst (run (parse_request req)) = Raised e →
  generate_letter_try rt profanity_list req tr = (Raised e, tr).
Proof.
  intros Hp. unfold generate_letter_try, mbind, M_bind at 1.
  rewrite parse_request_trace, Hp. reflexivity.
Qed.

Lemma try_parsed req a d sc tr :
  parses_to req a d sc →
  generate_letter_try rt profanity_list req tr
  = match sc with
    | JStr s =>
      if negb (re_search_letter s) then
        (Done (jsonify (Envelope false elaborate_message)),
         tr ++ [Log INFO; Log WARNING])
      else
        match tagger_morphs rt s with
        | Raised e => (Raised e, tr ++ [Log INFO; Morphs s])
        | Done tokens =>
          match list_of_set rt (found_words profanity_list s tokens) with
          | w :: ws =>
            (Done (jsonify (Envelope false
                     (profanity_prefix ++ join (lit ", ") (w :: ws)))),
             tr ++ [Log INFO; Morphs s; Log WARNING])
          | [] =>
            let req' := completion_request (system_prompt token_limit)
                          (user_prompt (py_str rt) a d s) in
            (match consume (chat_completions_create rt req') [] with
             | Done text => Done (jsonify (Envelope true text))
             | Raised e => Raised e
             end,
             tr ++ [Log INFO; Morphs s; ChatCreate req'])
          end
        end
    | _ => (Raised TypeError, tr ++ [Log INFO])
    end.
Proof.
  intros Hp. unfold parses_to in Hp.
  unfold generate_letter_try, mbind, M_bind at 1.
  rewrite parse_request_trace, Hp.
  destruct sc as [| | | |s| |]; try reflexivity.
  run_monad. destruct (re_search_letter s); cbv [negb].
  - destruct (tagger_morphs rt s) as [tokens|e].
    + destruct (list_of_set rt _) as [|w ws].
      * rewrite <- !app_assoc. destruct (consume _ _); reflexivity.
      * rewrite <- !app_assoc. reflexivity.
    + rewrite <- !app_assoc. reflexivity.
  - rewrite <- !app_assoc. reflexivity.
Qed.

Lemma run_unparsed req e :
  fst (run (parse_request req)) = Raised e →
  run (generate_letter rt profanity_list req)
  = (Done (Response 500 (ErrorBody e)), [Log ERROR]).
Proof.
  intros He. unfold run.
  rewrite generate_letter_unfold, (try_parse_error _ _ _ He).
  reflexivity.
Qed.

(** The whole run, by what the request parses to. *)
Lemma run_parsed req a d sc :
  parses_to req a d sc →
  run (generate_letter rt profanity_list req)
  = match sc with
    | JStr s =>
      if re_search_letter s then
        match tagger_morphs rt s with
        | Raised e =>
          (Done (Response 500 (ErrorBody e)),
           [Log INFO; Morphs s; Log ERROR])
        | Done tokens =>
          match list_of_set rt (found_words profanity_list s tokens) with
          | w :: ws =>
            (Done (Response 200
                     (Envelope false
                        (profanity_prefix ++ join (lit ", ") (w :: ws)))),
             [Log INFO; Morphs s; Log WARNING])
          | [] =>
            match consume
                    (chat_completions_create rt
                       (completion_request (system_prompt token_limit)
                          (user_prompt (py_str rt) a d s))) [] with
            | Done text =>
              (Done (Response 200 (Envelope true text)),
               [Log INFO; Morphs s;
                ChatCreate (completion_request (system_prompt token_limit)
                              (user_prompt (py_str rt) a d s))])
            | Raised e =>
              (Done (Response 500 (ErrorBody e)),
               [Log INFO; Morphs s;
                ChatCreate (completion_request (system_prompt token_limit)
                              (user_prompt (py_str rt) a d s));
                Log ERROR])
            end
          end
        end
      else
        (Done (Response 200 (Envelope false elaborate_message)),
         [Log INFO; Log WARNING])
    | _ => (Done (Response 500 (ErrorBody TypeError)), [Log INFO; Log ERROR])
    end.
Proof.
  intros Hp. unfold run.
  rewrite generate_letter_unfold, (try_parsed _ _ _ _ _ Hp).
  destruct sc as [| | | |s| |]; try reflexivity.
  destruct (re_search_letter s); cbv [negb]; [|reflexivity].
  destruct (tagger_morphs rt s) as [tokens|e]; [|reflexivity].
  destruct (list_of_set rt _) as [|w ws]; [|reflexivity].
  cbv zeta. destruct (consume _ _); reflexivity.
Qed.

(** The same table for a scenario with a letter whose tokens came back. *)
Lemma run_tokenized req a d s tokens :
  parses_to req a d (JStr s) →
  re_search_letter s = true →
  tagger_morphs rt s = Done tokens →
  run (generate_letter rt profanity_list req)
  = match list_of_set rt (found_words profanity_list s tokens) with
    | w :: ws =>
      (Done (Response 200
               (Envelope false
                  (profanity_prefix ++ join (lit ", ") (w :: ws)))),
       [Log INFO; Morphs s; Log WARNING])
    | [] =>
      match consume
              (chat_completions_create rt
                 (completion_request (system_prompt token_limit)
                    (user_prompt (py_str rt) a d s))) [] with
      | Done text =>
        (Done (Response 200 (Envelope true text)),
         [Log INFO; Morphs s;
          ChatCreate (completion_request (system_prompt token_limit)
                        (user_prompt (py_str rt) a d s))])
      | Raised e =>
        (Done (Response 500 (ErrorBody e)),
         [Log INFO; Morphs s;
          ChatCreate (completion_request (system_prompt token_limit)
                        (user_prompt (py_str rt) a d s));
          Log ERROR])
      end
    end.
Proof.
  intros Hp Hletter Htok. rewrite (run_parsed _ _ _ _ Hp), Hletter, Htok.
  reflexivity.
Qed.
End run.

(** ** Screening *)

Section screening.
Implicit Types (lexicon tokens words : list str) (s w : str).

Lemma elem_of_found_words lexicon s tokens w :
  w ∈ found_words lexicon s tokens ↔ matched lexicon s tokens w.
Proof.
  unfold found_words, matched. rewrite list_elem_of_filter.
  rewrite orb_True, bool_decide_spec, Is_true_true, str_contains_spec.
  tauto.
Qed.

Lemma found_words_nil lexicon s tokens :
  found_words lexicon s tokens = [] ↔ ∀ w, ¬ matched lexicon s tokens w.
Proof.
  split.
  - intros Hnil w Hw. apply elem_of_found_words in Hw.
    rewrite Hnil in Hw. by apply elem_of_nil in Hw.
  - intros Hnone. destruct (found_words _ _ _) as [|w ws] eqn:Hf; [done|].
    destruct (Hnone w). apply elem_of_found_words. rewrite Hf. left.
Qed.

Context (rt : runtime) (Hok : runtime_ok rt).

Lemma elem_of_list_of_set words w : w ∈ list_of_set rt words ↔ w ∈ words.
Proof. by rewrite (list_of_set_perm rt Hok), elem_of_remove_dups. Qed.

Lemma NoDup_list_of_set words : NoDup (list_of_set rt words).
Proof. rewrite (list_of_set_perm rt Hok). apply NoDup_remove_dups. Qed.

Lemma list_of_set_nil words : list_of_set rt words = [] ↔ words = [].
Proof.
  split.
  - intros Hnil. destruct words as [|w ws]; [done|].
    assert (w ∈ list_of_set rt (w :: ws)) as Hw
      by (apply elem_of_list_of_set; left).
    rewrite Hnil in Hw. by apply elem_of_nil in Hw.
  - intros ->. apply Permutation_nil_r. apply (list_of_set_perm rt Hok).
Qed.

Lemma elem_of_screened lexicon s tokens w :
  w ∈ list_of_set rt (found_words lexicon s tokens)
  ↔ matched lexicon s tokens w.
Proof. by rewrite elem_of_list_of_set, elem_of_found_words. Qed.

Lemma screened_nil lexicon s tokens :
  list_of_set rt (found_words lexicon s tokens) = []
  ↔ ∀ w, ¬ matched lexicon s tokens w.
Proof. by rewrite list_of_set_nil, found_words_nil. Qed.
End screening.

(** ** The streamed completion *)

Section stream.
Implicit Types (chat : chat_stream) (text acc : str).

Lemma consume_acc chat acc :
  consume chat acc
  = match consume chat [] with
    | Done text => Done (acc ++ text)
    | Raised e => Raised e
    end.
Proof.
  revert acc. induction chat as [|chunk rest IH|e]; intros acc; simpl.
  - by rewrite app_nil_r.
  - destruct (choices chunk) as [[|choice0 ?]|]; [done| |done].
    destruct (truthy_content (delta choice0)) as [text|]; [|apply IH].
    rewrite IH, (IH text). destruct (consume rest []); [|done].
    by rewrite app_assoc.
  - done.
Qed.

Lemma consume_fragments chat text :
  consume chat [] = Done text → text = concat (fragments chat).
Proof.
  revert text. induction chat as [|chunk rest IH|e]; intros text; simpl.
  - by intros [= <-].
  - unfold fragments, fragment. simpl.
    destruct (choices chunk) as [[|choice0 ?]|]; [done| |done].
    destruct (truthy_content (delta choice0)) as [piece|]; simpl.
    + rewrite consume_acc. destruct (consume rest []) as [t|]; [|done].
      intros [= <-]. f_equal. by apply IH.
    + intros Hrest. by apply IH.
  - done.
Qed.

(** Appending piece by piece from the left is plain concatenation. *)
Lemma foldl_append (pieces : list str) acc :
  foldl (λ generated_text piece, generated_text ++ piece) acc pieces
  = acc ++ concat pieces.
Proof.
  revert acc. induction pieces as [|p ps IH]; intros acc; simpl.
  - by rewrite app_nil_r.
  - by rewrite IH, app_assoc.
Qed.
End stream.

(** ** Every run takes one of the exits *)

Section exits.
Context (rt : runtime) (profanity_list : list str).
Implicit Types (req : request) (s : str) (a d sc : json).

Lemma parses_to_inj req a d sc a' d' sc' :
  parses_to req a d sc → parses_to req a' d' sc' →
  a = a' ∧ d = d' ∧ sc = sc'.
Proof. unfold parses_to. intros -> [= -> -> ->]. done. Qed.

Lemma parse_request_cases req :
  (∃ e, fst (run (parse_request req)) = Raised e)
  ∨ (∃ a d sc, parses_to req a d sc).
Proof.
  unfold parses_to. destruct (fst (run (parse_request req))) as [[a d sc]|e].
  - right. by exists a, d, sc.
  - left. by exists e.
Qed.

Lemma generate_letter_exit req :
  exit rt profanity_list req (run (generate_letter rt profanity_list req)).
Proof.
  destruct (parse_request_cases req) as [(e & He)|(a & d & sc & Hp)].
  - rewrite (run_unparsed _ _ _ _ He). apply exit_unparseable, He.
  - rewrite (run_parsed _ _ _ _ _ _ Hp).
    destruct sc as [| | | |s| |];
      try (eapply exit_not_text; [exact Hp|intros s H; discriminate H]).
    destruct (re_search_letter s) eqn:Hletter.
    + destruct (tagger_morphs rt s) as [tokens|e] eqn:Htok.
      * destruct (list_of_set rt _) as [|w ws] eqn:Hfound.
        -- destruct (consume _ _) as [text|e] eqn:Hchat.
           ++ eapply exit_completed; eassumption.
           ++ eapply exit_generation_failed; eassumption.
        -- eapply exit_profanity; eassumption.
      * eapply exit_tokenizer_failed; eassumption.
    + eapply exit_invalid_scenario; eassumption.
Qed.
End exits.

(** ** The calls of a run *)

Section calls.
Context (rt : runtime) (lexicon : list str).
Implicit Types (req : request) (s : str) (a d sc : json) (e : exn).

Lemma chat_calls_parsed req a d s :
  parses_to req a d (JStr s) →
  chat_calls (snd (run (generate_letter rt lexicon req)))
  = if re_search_letter s then
      match tagger_morphs rt s with
      | Raised _ => []
      | Done tokens =>
        match list_of_set rt (found_words lexicon s tokens) with
        | _ :: _ => []
        | [] => [ChatCreate (completion_request (system_prompt token_limit)
                               (user_prompt (py_str rt) a d s))]
        end
      end
    else [].
Proof.
  intros Hp. rewrite (run_parsed _ _ _ _ _ _ Hp).
  destruct (re_search_letter s); [|reflexivity].
  destruct (tagger_morphs rt s); [|reflexivity].
  destruct (list_of_set rt _); [|reflexivity].
  destruct (consume _ _); reflexivity.
Qed.

Lemma morphs_calls_parsed req a d s :
  parses_to req a d (JStr s) →
  morphs_calls (snd (run (generate_letter rt lexicon req)))
  = if re_search_letter s then [Morphs s] else [].
Proof.
  intros Hp. rewrite (run_parsed _ _ _ _ _ _ Hp).
  destruct (re_search_letter s); [|reflexivity].
  destruct (tagger_morphs rt s); [|reflexivity].
  destruct (list_of_set rt _); [|reflexivity].
  destruct (consume _ _); reflexivity.
Qed.
End calls.

(** ** The fixed texts *)

Lemma profanity_prefix_elaborate words :
  profanity_prefix ++ words ≠ elaborate_message.
Proof.
  assert (∃ t, profanity_prefix = 48124%N :: t) as [t ->]
    by (eexists; vm_compute; reflexivity).
  assert (∃ t', elaborate_message = 45817%N :: t') as [t' ->]
    by (eexists; vm_compute; reflexivity).
  simpl. by intros [= ].
Qed.

Lemma envelope_result_inj (st st' : Z) (ok ok' : bool) (m m' : str) :
  @Done response (Response st (Envelope ok m))
  = Done (Response st' (Envelope ok' m')) →
  m = m'.
Proof. intros [= _ _ Hm]. exact Hm. Qed.

(** ** The example runtimes *)

Lemma demo_runtime_ok : runtime_ok demo_runtime.
Proof. by split. Qed.

Lemma other_runtime_ok : runtime_ok other_runtime.
Proof. split; [done|]. intros words. simpl. apply reverse_Permutation. Qed.

Lemma demo_runtime_with_ok (chat : chat_stream) :
  runtime_ok (demo_runtime_with chat).
Proof. split; intros; reflexivity. Qed.

Lemma scenario_only_parses s :
  parses_to (scenario_only s)
    (JStr (lit "무명 작가")) (JStr (lit "단문")) (JStr s).
Proof.
  unfold parses_to, scenario_only, run. rewrite parse_request_object.
  replace (dict_lookup (lit "author") [(lit "scenario", JStr s)])
    with (@None json) by (vm_compute; reflexivity).
  replace (dict_lookup (lit "documentType") [(lit "scenario", JStr s)])
    with (@None json) by (vm_compute; reflexivity).
  replace (dict_lookup (lit "scenario") [(lit "scenario", JStr s)])
    with (Some (JStr s)) by (vm_compute; reflexivity).
  reflexivity.
Qed.

Lemma letter_of_oo :
  ∃ c, c ∈ lit "oo" ∧ (latin_letter c ∨ hangul_syllable c).
Proof.
  exists 111%N. split; [vm_compute; left|]. left. unfold latin_letter. lia.
Qed.

Lemma demo_morphs_oo : demo_morphs (lit "oo") = Done [lit "oo"].
Proof. vm_compute. reflexivity. Qed.
(** * The claims *)

(** ** Profanity rejection *)

(** C1, as amended. For every scenario that passes the letter/Hangul
    presence check, whose tokens the tokenizer returns, and that contains
    at least one lexicon term, as a substring of the raw text or as one of
    its tokens, the handler answers 200 with [isSuccessful: false], and
    the result is the fixed prefix followed by the matched terms joined
    with [", "]: every matched term is listed, nothing else is, and no
    term is listed twice. *)
Theorem profanity_reply_lists_each_match_once
    (rt : runtime) (lexicon : list str) (req : request) (a d : json)
    (s : str) (tokens : list str) :
  runtime_ok rt →
  parses_to req a d (JStr s) →
  (∃ c, c ∈ s ∧ (latin_letter c ∨ hangul_syllable c)) →
  tagger_morphs rt s = Done tokens →
  (∃ w, matched lexicon s tokens w) →
  ∃ listed,
    fst (run (generate_letter rt lexicon req))
    = Done (Response 200
              (Envelope false (profanity_prefix ++ join (lit ", ") listed)))
    ∧ NoDup listed
    ∧ ∀ w, w ∈ listed ↔ matched lexicon s tokens w.
Proof.
  intros Hok Hp Hletter Htok [w0 Hw0].
  apply re_search_letter_spec in Hletter.
  exists (list_of_set rt (found_words lexicon s tokens)).
  split; [|split].
  - rewrite (run_tokenized _ _ _ _ _ _ _ Hp Hletter Htok).
    destruct (list_of_set rt _) as [|w ws] eqn:Hfound; [|reflexivity].
    destruct (proj1 (screened_nil rt Hok lexicon s tokens) Hfound w0 Hw0).
  - apply NoDup_list_of_set, Hok.
  - intros w. apply elem_of_screened, Hok.
Qed.

Lemma profanity_reply_lists_each_match_once_witness :
  ∃ listed,
    fst (run (generate_letter demo_runtime
                [lit "바보"; lit "멍청이"; lit "바보"; lit "보야"]
                (scenario_only (lit "바보 바보 보야"))))
    = Done (Response 200
              (Envelope false (profanity_prefix ++ join (lit ", ") listed)))
    ∧ NoDup listed
    ∧ ∀ w, w ∈ listed
           ↔ matched [lit "바보"; lit "멍청이"; lit "바보"; lit "보야"]
               (lit "바보 바보 보야")
               [lit "바보"; lit "바보"; lit "보야"] w.
Proof.
  apply (profanity_reply_lists_each_match_once demo_runtime _ _ _ _ _ _
           demo_runtime_ok (scenario_only_parses _)).
  - exists 48148%N. split; [vm_compute; left|].
    right. unfold hangul_syllable. lia.
  - vm_compute. reflexivity.
  - exists (lit "바보"). split; [left|].
    right. left.
Defined.

(** C1, as stated, fails in two ways. When the scenario has no Latin
    letter and no Hangul syllable: the lexicon term "ㅋ" occurs in "ㅋㅋㅋ",
    and the handler answers with the elaboration request, in which "ㅋ"
    does not occur. When the tokenizer raises: the lexicon term "바보"
    occurs in the scenario "바보" followed by a lone surrogate, which has
    Hangul syllables, and the handler answers 500 with the exception. *)
Lemma match_is_not_listed_without_letter_or_tokens :
  runtime_ok demo_runtime
  ∧ (lit "ㅋ" ∈ [lit "ㅋ"]
     ∧ occurs_in (lit "ㅋ") (lit "ㅋㅋㅋ")
     ∧ fst (run (generate_letter demo_runtime [lit "ㅋ"]
                   (scenario_only (lit "ㅋㅋㅋ"))))
       = Done (Response 200 (Envelope false elaborate_message))
     ∧ ¬ occurs_in (lit "ㅋ") elaborate_message)
  ∧ (lit "바보" ∈ [lit "바보"]
     ∧ occurs_in (lit "바보") (lit "바보" ++ [0xD800%N])
     ∧ tagger_morphs demo_runtime (lit "바보" ++ [0xD800%N])
       = Raised UnicodeEncodeError
     ∧ run (generate_letter demo_runtime [lit "바보"]
              (scenario_only (lit "바보" ++ [0xD800%N])))
       = (Done (Response 500 (ErrorBody UnicodeEncodeError)),
          [Log INFO; Morphs (lit "바보" ++ [0xD800%N]); Log ERROR])).
Proof.
  split; [exact demo_runtime_ok|]. split.
  - split; [left|]. split; [|split].
    + apply str_contains_spec. vm_compute. reflexivity.
    + vm_compute. reflexivity.
    + rewrite <- str_contains_spec. vm_compute. intros H. discriminate H.
  - split; [left|]. split; [|split].
    + exists [], [0xD800%N]. reflexivity.
    + vm_compute. reflexivity.
    + vm_compute. reflexivity.
Qed.

(** ** The letter/Hangul presence check *)

(** C2. For every scenario string with no Latin letter and no Hangul
    syllable, the handler answers 200 with [isSuccessful: false] and the
    fixed elaboration request, and the run calls neither the tokenizer nor
    the generation service: its trace holds the two log records only. *)
Theorem scenario_without_letters_is_asked_to_elaborate
    (rt : runtime) (lexicon : list str) (req : request) (a d : json)
    (s : str) :
  parses_to req a d (JStr s) →
  (∀ c, c ∈ s → ¬ latin_letter c ∧ ¬ hangul_syllable c) →
  run (generate_letter rt lexicon req)
  = (Done (Response 200
             (Envelope false
                (lit "당신의 이야기를 조금만 더 들려주실 수 있나요?"))),
     [Log INFO; Log WARNING])
  ∧ morphs_calls (snd (run (generate_letter rt lexicon req))) = []
  ∧ chat_calls (snd (run (generate_letter rt lexicon req))) = [].
Proof.
  intros Hp Hnone. apply re_search_letter_none in Hnone.
  assert (run (generate_letter rt lexicon req)
          = (Done (Response 200 (Envelope false elaborate_message)),
             [Log INFO; Log WARNING])) as Hrun.
  { rewrite (run_parsed _ _ _ _ _ _ Hp), Hnone. reflexivity. }
  rewrite Hrun. split; [reflexivity|]. split; reflexivity.
Qed.

Lemma scenario_without_letters_is_asked_to_elaborate_witness :
  run (generate_letter demo_runtime [lit "ㅋ"] (scenario_only (lit "ㅋㅋㅋ")))
  = (Done (Response 200
             (Envelope false
                (lit "당신의 이야기를 조금만 더 들려주실 수 있나요?"))),
     [Log INFO; Log WARNING])
  ∧ morphs_calls (snd (run (generate_letter demo_runtime [lit "ㅋ"]
                              (scenario_only (lit "ㅋㅋㅋ"))))) = []
  ∧ chat_calls (snd (run (generate_letter demo_runtime [lit "ㅋ"]
                            (scenario_only (lit "ㅋㅋㅋ"))))) = [].
Proof.
  apply (scenario_without_letters_is_asked_to_elaborate demo_runtime _ _ _ _ _
           (scenario_only_parses _)).
  each_code_point.
Defined.

(** The empty scenario and a scenario of digits and punctuation take the
    same exit. *)
Example empty_scenario_is_asked_to_elaborate :
  fst (run (generate_letter demo_runtime [] (scenario_only [])))
  = Done (Response 200 (Envelope false elaborate_message)).
Proof. vm_compute. reflexivity. Qed.

Example digits_scenario_is_asked_to_elaborate :
  fst (run (generate_letter demo_runtime [] (scenario_only (lit "2024 !?"))))
  = Done (Response 200 (Envelope false elaborate_message)).
Proof. vm_compute. reflexivity. Qed.

(** ** Screening *)

(** C3. Whatever the scenario and the lexicon, every term of a list that
    the screening step returns is an element of the lexicon that occurs
    verbatim in the raw scenario (same code points, contiguous) or is
    equal to one of the tokens that the tokenizer returned; and the step
    returns such a list whenever the tokenizer returns. *)
Theorem matched_terms_are_lexicon_terms_present
    (rt : runtime) (lexicon : list str) (s : str) (tr : list call) :
  runtime_ok rt →
  (∀ found,
     fst (screen rt lexicon s tr) = Done found →
     ∃ tokens,
       tagger_morphs rt s = Done tokens
       ∧ ∀ w, w ∈ found → w ∈ lexicon ∧ (occurs_in w s ∨ w ∈ tokens))
  ∧ (∀ tokens,
       tagger_morphs rt s = Done tokens →
       ∃ found, screen rt lexicon s tr = (Done found, tr ++ [Morphs s])).
Proof.
  intros Hok. rewrite screen_run. split.
  - intros found. destruct (tagger_morphs rt s) as [tokens|e]; simpl.
    + intros [= <-]. exists tokens. split; [reflexivity|].
      intros w Hw. exact (proj1 (elem_of_screened rt Hok lexicon s tokens w) Hw).
    + intros H. discriminate H.
  - intros tokens ->. eexists. reflexivity.
Qed.

Lemma matched_terms_are_lexicon_terms_present_witness :
  (∀ found,
     fst (screen demo_runtime [lit "Fool"; lit "oo"; lit "바보"]
            (lit "a fool") []) = Done found →
     ∃ tokens,
       tagger_morphs demo_runtime (lit "a fool") = Done tokens
       ∧ ∀ w, w ∈ found →
              w ∈ [lit "Fool"; lit "oo"; lit "바보"]
              ∧ (occurs_in w (lit "a fool") ∨ w ∈ tokens))
  ∧ (∀ tokens,
       tagger_morphs demo_runtime (lit "a fool") = Done tokens →
       ∃ found,
         screen demo_runtime [lit "Fool"; lit "oo"; lit "바보"]
           (lit "a fool") []
         = (Done found, [] ++ [Morphs (lit "a fool")])).
Proof.
  exact (matched_terms_are_lexicon_terms_present demo_runtime
           [lit "Fool"; lit "oo"; lit "바보"] (lit "a fool") []
           demo_runtime_ok).
Defined.

(** Matching is case-sensitive: "Fool" is not found in "a fool". *)
Example screening_is_case_sensitive :
  fst (screen demo_runtime [lit "Fool"; lit "oo"; lit "바보"] (lit "a fool") [])
  = Done [lit "oo"].
Proof. vm_compute. reflexivity. Qed.

(** ** The concrete profanity scenario *)

Lemma babo_message :
  profanity_prefix ++ lit "바보"
  = lit "민감한 표현의 단어가 포함되었습니다. : 바보".
Proof. vm_compute. reflexivity. Qed.

Lemma babo_occurs : occurs_in (lit "바보") (lit "너는 바보야").
Proof. apply str_contains_spec. vm_compute. reflexivity. Qed.

Lemma babo_letter :
  re_search_letter (lit "너는 바보야") = true.
Proof. vm_compute. reflexivity. Qed.

(** A duplicate-free list whose elements are all [w], and which holds [w],
    is [[w]]. *)
Lemma NoDup_all_same (w : str) (l : list str) :
  NoDup l → w ∈ l → (∀ x, x ∈ l → x = w) → l = [w].
Proof.
  intros Hnd Hin Hall. destruct l as [|x l]; [by apply elem_of_nil in Hin|].
  assert (x = w) as -> by (apply Hall; left).
  f_equal. destruct l as [|y l]; [done|].
  assert (y = w) as -> by (apply Hall; right; left).
  apply NoDup_cons in Hnd as [Hnotin _]. destruct Hnotin. left.
Qed.

(** C4, as amended. If the lexicon contains "바보" and no other lexicon
    term occurs in "너는 바보야" or among the tokens that the tokenizer
    returns for it, the request [{"scenario": "너는 바보야"}] is answered
    with 200 and [{"isSuccessful": false, "result": "민감한 표현의 단어가
    포함되었습니다. : 바보"}]. *)
Theorem babo_alone_is_reported
    (rt : runtime) (lexicon : list str) (tokens : list str) :
  runtime_ok rt →
  lit "바보" ∈ lexicon →
  tagger_morphs rt (lit "너는 바보야") = Done tokens →
  (∀ w, matched lexicon (lit "너는 바보야") tokens w → w = lit "바보") →
  fst (run (generate_letter rt lexicon (scenario_only (lit "너는 바보야"))))
  = Done (Response 200
            (Envelope false
               (lit "민감한 표현의 단어가 포함되었습니다. : 바보"))).
Proof.
  intros Hok Hin Htok Honly.
  assert (list_of_set rt (found_words lexicon (lit "너는 바보야") tokens)
          = [lit "바보"]) as Hfound.
  { apply NoDup_all_same.
    - apply NoDup_list_of_set, Hok.
    - apply (elem_of_screened rt Hok). split; [exact Hin|].
      left. exact babo_occurs.
    - intros x Hx. apply Honly.
      exact (proj1 (elem_of_screened rt Hok _ _ _ _) Hx). }
  rewrite (run_tokenized _ _ _ _ _ _ _ (scenario_only_parses _)
             babo_letter Htok).
  rewrite Hfound. cbv [fst join].
  rewrite babo_message. reflexivity.
Qed.

Lemma babo_alone_is_reported_witness :
  fst (run (generate_letter demo_runtime [lit "멍청이"; lit "바보"; lit "바보"]
              (scenario_only (lit "너는 바보야"))))
  = Done (Response 200
            (Envelope false
               (lit "민감한 표현의 단어가 포함되었습니다. : 바보"))).
Proof.
  apply (babo_alone_is_reported demo_runtime _ [lit "너는"; lit "바보야"]
           demo_runtime_ok).
  - right. left.
  - vm_compute. reflexivity.
  - intros w [Hw Hm].
    apply elem_of_cons in Hw as [->|Hw]; [|].
    + exfalso. destruct Hm as [Hm|Hm].
      * apply str_contains_spec in Hm. vm_compute in Hm. discriminate Hm.
      * vm_compute in Hm.
        apply elem_of_cons in Hm as [Hm|Hm]; [discriminate Hm|].
        apply elem_of_cons in Hm as [Hm|Hm]; [discriminate Hm|].
        apply elem_of_nil in Hm. exact Hm.
    + apply elem_of_cons in Hw as [->|Hw]; [reflexivity|].
      apply elem_of_cons in Hw as [->|Hw]; [reflexivity|].
      apply elem_of_nil in Hw. destruct Hw.
Defined.

(** C4, as stated, fails for a lexicon that contains "바보" and also "보":
    both occur in "너는 바보야", and both are reported. *)
Lemma babo_with_bo_reports_both :
  runtime_ok demo_runtime
  ∧ lit "바보" ∈ [lit "바보"; lit "보"]
  ∧ fst (run (generate_letter demo_runtime [lit "바보"; lit "보"]
                (scenario_only (lit "너는 바보야"))))
    = Done (Response 200
              (Envelope false
                 (lit "민감한 표현의 단어가 포함되었습니다. : 바보, 보")))
  ∧ fst (run (generate_letter demo_runtime [lit "바보"; lit "보"]
                (scenario_only (lit "너는 바보야"))))
    ≠ Done (Response 200
              (Envelope false
                 (lit "민감한 표현의 단어가 포함되었습니다. : 바보"))).
Proof.
  split; [exact demo_runtime_ok|]. split; [left|]. split.
  - vm_compute. reflexivity.
  - vm_compute. intros H. discriminate H.
Qed.

(** ** Repeating the screening *)

(** C5. Two runs of the screening step over the same scenario and the
    same lexicon, with the tokenizer answering alike, reach the same
    decision whatever the set order of each process and whatever the
    generation service does: either the tokenizer raises and both runs
    end with its exception, or both return a list, both lists are empty
    or neither is, and they hold the same terms. *)
Theorem screening_decision_is_repeatable
    (rt1 rt2 : runtime) (lexicon : list str) (s : str)
    (tr1 tr2 : list call) :
  runtime_ok rt1 → runtime_ok rt2 →
  tagger_morphs rt1 s = tagger_morphs rt2 s →
  (∃ e,
     fst (screen rt1 lexicon s tr1) = Raised e
     ∧ fst (screen rt2 lexicon s tr2) = Raised e)
  ∨ (∃ found1 found2,
       fst (screen rt1 lexicon s tr1) = Done found1
       ∧ fst (screen rt2 lexicon s tr2) = Done found2
       ∧ (found1 = [] ↔ found2 = [])
       ∧ (∀ w, w ∈ found1 ↔ w ∈ found2)
       ∧ found1 ≡ₚ found2).
Proof.
  intros Hok1 Hok2 Htok. rewrite !screen_run, <- Htok.
  destruct (tagger_morphs rt1 s) as [tokens|e].
  - right.
    exists (list_of_set rt1 (found_words lexicon s tokens)),
           (list_of_set rt2 (found_words lexicon s tokens)).
    split; [reflexivity|]. split; [reflexivity|]. split; [|split].
    + rewrite (list_of_set_nil rt1 Hok1), (list_of_set_nil rt2 Hok2). tauto.
    + intros w.
      rewrite (elem_of_list_of_set rt1 Hok1), (elem_of_list_of_set rt2 Hok2).
      tauto.
    + rewrite (list_of_set_perm rt1 Hok1), (list_of_set_perm rt2 Hok2).
      reflexivity.
  - left. exists e. split; reflexivity.
Qed.

Lemma screening_decision_is_repeatable_witness :
  (∃ e,
     fst (screen demo_runtime [lit "보"; lit "바보"; lit "보"]
            (lit "너는 바보야") []) = Raised e
     ∧ fst (screen other_runtime [lit "보"; lit "바보"; lit "보"]
              (lit "너는 바보야") [Log INFO]) = Raised e)
  ∨ (∃ found1 found2,
       fst (screen demo_runtime [lit "보"; lit "바보"; lit "보"]
              (lit "너는 바보야") []) = Done found1
       ∧ fst (screen other_runtime [lit "보"; lit "바보"; lit "보"]
                (lit "너는 바보야") [Log INFO]) = Done found2
       ∧ (found1 = [] ↔ found2 = [])
       ∧ (∀ w, w ∈ found1 ↔ w ∈ found2)
       ∧ found1 ≡ₚ found2).
Proof.
  apply (screening_decision_is_repeatable demo_runtime other_runtime
           [lit "보"; lit "바보"; lit "보"] (lit "너는 바보야") [] [Log INFO]
           demo_runtime_ok other_runtime_ok).
  reflexivity.
Defined.

(** The two processes of the example do list the terms in different
    orders. *)
Example set_order_differs :
  fst (screen demo_runtime [lit "보"; lit "바보"; lit "보"]
         (lit "너는 바보야") []) = Done [lit "바보"; lit "보"]
  ∧ fst (screen other_runtime [lit "보"; lit "바보"; lit "보"]
           (lit "너는 바보야") []) = Done [lit "보"; lit "바보"].
Proof. split; vm_compute; reflexivity. Qed.

(** ** Generation *)

Section generation.
Context (rt : runtime) (Hok : runtime_ok rt) (lexicon : list str).

(** A scenario with a letter, tokenized and without a match, goes to the
    service: where the run ends then hangs on the stream alone. *)
Lemma run_clean (req : request) (a d : json) (s : str) (tokens : list str) :
  parses_to req a d (JStr s) →
  (∃ c, c ∈ s ∧ (latin_letter c ∨ hangul_syllable c)) →
  tagger_morphs rt s = Done tokens →
  (∀ w, ¬ matched lexicon s tokens w) →
  let req' := completion_request (system_prompt token_limit)
                (user_prompt (py_str rt) a d s) in
  run (generate_letter rt lexicon req)
  = match consume (chat_completions_create rt req') [] with
    | Done text =>
      (Done (Response 200 (Envelope true text)),
       [Log INFO; Morphs s; ChatCreate req'])
    | Raised e =>
      (Done (Response 500 (ErrorBody e)),
       [Log INFO; Morphs s; ChatCreate req'; Log ERROR])
    end.
Proof using Hok.
  intros Hp Hletter Htok Hnone req'.
  apply re_search_letter_spec in Hletter.
  apply (screened_nil rt Hok) in Hnone.
  rewrite (run_tokenized _ _ _ _ _ _ _ Hp Hletter Htok), Hnone.
  reflexivity.
Qed.

Lemma chat_calls_clean (req : request) (a d : json) (s : str)
    (tokens : list str) :
  parses_to req a d (JStr s) →
  (∃ c, c ∈ s ∧ (latin_letter c ∨ hangul_syllable c)) →
  tagger_morphs rt s = Done tokens →
  (∀ w, ¬ matched lexicon s tokens w) →
  chat_calls (snd (run (generate_letter rt lexicon req)))
  = [ChatCreate (completion_request (system_prompt token_limit)
                   (user_prompt (py_str rt) a d s))].
Proof using Hok.
  intros Hp Hletter Htok Hnone.
  rewrite (run_clean _ _ _ _ _ Hp Hletter Htok Hnone). cbv zeta.
  destruct (consume _ _); reflexivity.
Qed.

Lemma response_clean (req : request) (a d : json) (s : str)
    (tokens : list str) :
  parses_to req a d (JStr s) →
  (∃ c, c ∈ s ∧ (latin_letter c ∨ hangul_syllable c)) →
  tagger_morphs rt s = Done tokens →
  (∀ w, ¬ matched lexicon s tokens w) →
  fst (run (generate_letter rt lexicon req))
  = match consume
            (chat_completions_create rt
               (completion_request (system_prompt token_limit)
                  (user_prompt (py_str rt) a d s))) [] with
    | Done text => Done (Response 200 (Envelope true text))
    | Raised e => Done (Response 500 (ErrorBody e))
    end.
Proof using Hok.
  intros Hp Hletter Htok Hnone.
  rewrite (run_clean _ _ _ _ _ Hp Hletter Htok Hnone). cbv zeta.
  destruct (consume _ _); reflexivity.
Qed.
End generation.

Lemma user_prompt_ext (f g : json → str) (a d : json) (s : str) :
  (∀ x, f x = g x) → user_prompt f a d s = user_prompt g a d s.
Proof. intros Hfg. unfold user_prompt. rewrite !Hfg. reflexivity. Qed.

(** C6, as amended. A scenario that passes the presence check, whose
    tokens the tokenizer returns, and that matches no lexicon term makes
    the handler call the generation service exactly once, and the request
    of that call is built from (author, documentType, scenario,
    token_limit) alone: two runs that agree on these, in processes that
    format values alike, send the same request, whatever their lexicons,
    tokenizers, set orders and completions. *)
Theorem clean_scenario_calls_gateway_once
    (rt1 rt2 : runtime) (lexicon1 lexicon2 : list str)
    (req1 req2 : request) (a d : json) (s : str)
    (tokens1 tokens2 : list str) :
  runtime_ok rt1 → runtime_ok rt2 →
  (∀ x, py_str rt1 x = py_str rt2 x) →
  parses_to req1 a d (JStr s) → parses_to req2 a d (JStr s) →
  (∃ c, c ∈ s ∧ (latin_letter c ∨ hangul_syllable c)) →
  tagger_morphs rt1 s = Done tokens1 →
  tagger_morphs rt2 s = Done tokens2 →
  (∀ w, ¬ matched lexicon1 s tokens1 w) →
  (∀ w, ¬ matched lexicon2 s tokens2 w) →
  ∃ sent,
    chat_calls (snd (run (generate_letter rt1 lexicon1 req1)))
    = [ChatCreate sent]
    ∧ chat_calls (snd (run (generate_letter rt2 lexicon2 req2)))
      = [ChatCreate sent]
    ∧ messages sent
      = [ Message (lit "system") (system_prompt token_limit);
          Message (lit "user") (user_prompt (py_str rt1) a d s) ].
Proof.
  intros Hok1 Hok2 Hstr Hp1 Hp2 Hletter Htok1 Htok2 Hnone1 Hnone2.
  exists (completion_request (system_prompt token_limit)
            (user_prompt (py_str rt1) a d s)).
  split; [|split].
  - exact (chat_calls_clean rt1 Hok1 lexicon1 _ _ _ _ _
             Hp1 Hletter Htok1 Hnone1).
  - rewrite (user_prompt_ext _ _ a d s Hstr).
    exact (chat_calls_clean rt2 Hok2 lexicon2 _ _ _ _ _
             Hp2 Hletter Htok2 Hnone2).
  - reflexivity.
Qed.

Lemma clean_scenario_calls_gateway_once_witness :
  ∃ sent,
    chat_calls (snd (run (generate_letter demo_runtime [lit "바보"]
                            (scenario_only (lit "oo")))))
    = [ChatCreate sent]
    ∧ chat_calls
        (snd (run (generate_letter other_runtime []
                     (Json (JObj [(lit "author", JStr (lit "무명 작가"));
                                  (lit "scenario", JStr (lit "oo"))])))))
      = [ChatCreate sent]
    ∧ messages sent
      = [ Message (lit "system") (system_prompt token_limit);
          Message (lit "user")
            (user_prompt (py_str demo_runtime)
               (JStr (lit "무명 작가")) (JStr (lit "단문")) (lit "oo")) ].
Proof.
  apply (clean_scenario_calls_gateway_once demo_runtime other_runtime
           [lit "바보"] []
           (scenario_only (lit "oo"))
           (Json (JObj [(lit "author", JStr (lit "무명 작가"));
                        (lit "scenario", JStr (lit "oo"))]))
           (JStr (lit "무명 작가")) (JStr (lit "단문")) (lit "oo")
           [lit "oo"] [lit "oo"]
           demo_runtime_ok other_runtime_ok).
  - reflexivity.
  - apply scenario_only_parses.
  - vm_compute. reflexivity.
  - exact letter_of_oo.
  - exact demo_morphs_oo.
  - exact demo_morphs_oo.
  - apply found_words_nil. vm_compute. reflexivity.
  - apply found_words_nil. vm_compute. reflexivity.
Defined.

(** C6, as stated, fails when the tokenizer raises: the scenario "a"
    followed by a lone surrogate has a Latin letter and, with an empty
    lexicon, contains no lexicon term, yet the handler answers 500 and
    the generation service is not called. *)
Lemma clean_scenario_is_not_sent_when_the_tokenizer_raises :
  runtime_ok demo_runtime
  ∧ (∃ c, c ∈ lit "a" ++ [0xD800%N]
          ∧ (latin_letter c ∨ hangul_syllable c))
  ∧ (∀ w tokens, ¬ matched [] (lit "a" ++ [0xD800%N]) tokens w)
  ∧ tagger_morphs demo_runtime (lit "a" ++ [0xD800%N])
    = Raised UnicodeEncodeError
  ∧ run (generate_letter demo_runtime []
           (scenario_only (lit "a" ++ [0xD800%N])))
    = (Done (Response 500 (ErrorBody UnicodeEncodeError)),
       [Log INFO; Morphs (lit "a" ++ [0xD800%N]); Log ERROR])
  ∧ chat_calls
      (snd (run (generate_letter demo_runtime []
                   (scenario_only (lit "a" ++ [0xD800%N])))))
    = [].
Proof.
  split; [exact demo_runtime_ok|]. split; [|split; [|split; [|split]]].
  - exists 97%N. split; [vm_compute; left|]. left. unfold latin_letter. lia.
  - intros w tokens [Hw _]. apply elem_of_nil in Hw. exact Hw.
  - vm_compute. reflexivity.
  - vm_compute. reflexivity.
  - vm_compute. reflexivity.
Qed.

(** The request body [{"scenario": "oo"}] of the specification: the
    defaults stand in for the missing fields and the service is called. *)
Example oo_is_generated :
  run (generate_letter demo_runtime [lit "바보"] (scenario_only (lit "oo")))
  = (Done (Response 200 (Envelope true (lit "봄이 왔다."))),
     [Log INFO; Morphs (lit "oo");
      ChatCreate
        (completion_request (system_prompt 512)
           (user_prompt demo_str (JStr (lit "무명 작가")) (JStr (lit "단문"))
              (lit "oo")))]).
Proof. vm_compute. reflexivity. Qed.

(** ** Status codes *)

(** C7. The handler always answers. When the [try] block ends normally
    the answer is its return value, with status 200 and the body
    [{isSuccessful, result}]; when it raises [e] the answer is status 500
    with the body [{error: str(e)}]. Both soft rejections, the scenario
    without letters and the tokenized scenario with a match, end
    normally: status 200 with [isSuccessful: false]. *)
Theorem rejections_answer_200_failures_500
    (rt : runtime) (lexicon : list str) (req : request) :
  ∃ r,
    fst (run (generate_letter rt lexicon req)) = Done r
    ∧ match fst (run (generate_letter_try rt lexicon req)) with
      | Done r' =>
        r = r' ∧ status r = 200%Z
        ∧ ∃ ok result, body r = Envelope ok result
      | Raised e => r = Response 500 (ErrorBody e)
      end
    ∧ (∀ a d s,
         parses_to req a d (JStr s) →
         re_search_letter s = false
         ∨ (∃ tokens,
              tagger_morphs rt s = Done tokens
              ∧ list_of_set rt (found_words lexicon s tokens) ≠ []) →
         ∃ message, r = Response 200 (Envelope false message)).
Proof.
  unfold run. rewrite generate_letter_unfold.
  destruct (parse_request_cases req) as [(e & He)|(a & d & sc & Hp)].
  - rewrite (try_parse_error _ _ _ _ _ He). eexists. split; [reflexivity|].
    split; [reflexivity|].
    intros a d s Hp _. unfold parses_to in Hp. rewrite He in Hp.
    discriminate Hp.
  - rewrite (try_parsed _ _ _ _ _ _ _ Hp).
    assert (∀ a' d' s', parses_to req a' d' (JStr s') → sc = JStr s')
      as Hsc.
    { intros a' d' s' Hp'.
      destruct (parses_to_inj _ _ _ _ _ _ _ Hp Hp') as (_ & _ & ->).
      reflexivity. }
    destruct sc as [| | | |s| |];
      try (eexists; split; [reflexivity|]; split; [reflexivity|];
           intros a' d' s' Hp' _; discriminate (Hsc a' d' s' Hp')).
    destruct (re_search_letter s) eqn:Hletter; cbv [negb].
    + destruct (tagger_morphs rt s) as [tokens|e] eqn:Htok.
      * destruct (list_of_set rt _) as [|w ws] eqn:Hfound.
        -- cbv zeta. destruct (consume _ _) as [text|e].
           ++ eexists. split; [reflexivity|].
              split; [split; [reflexivity|]; split; [reflexivity|];
                      eexists _, _; reflexivity|].
              intros a' d' s' Hp' Hor.
              injection (Hsc a' d' s' Hp') as <-.
              rewrite Hletter in Hor.
              destruct Hor as [Hor|(tokens' & Htok' & Hne)];
                [discriminate Hor|].
              rewrite Htok in Htok'. injection Htok' as <-.
              destruct Hne. exact Hfound.
           ++ eexists. split; [reflexivity|]. split; [reflexivity|].
              intros a' d' s' Hp' Hor.
              injection (Hsc a' d' s' Hp') as <-.
              rewrite Hletter in Hor.
              destruct Hor as [Hor|(tokens' & Htok' & Hne)];
                [discriminate Hor|].
              rewrite Htok in Htok'. injection Htok' as <-.
              destruct Hne. exact Hfound.
        -- eexists. split; [reflexivity|].
           split; [split; [reflexivity|]; split; [reflexivity|];
                   eexists _, _; reflexivity|].
           intros _ _ _ _ _. eexists. reflexivity.
      * eexists. split; [reflexivity|]. split; [reflexivity|].
        intros a' d' s' Hp' Hor.
        injection (Hsc a' d' s' Hp') as <-.
        rewrite Hletter in Hor.
        destruct Hor as [Hor|(tokens' & Htok' & _)];
          [discriminate Hor|].
        rewrite Htok in Htok'. discriminate Htok'.
    + eexists. split; [reflexivity|].
      split; [split; [reflexivity|]; split; [reflexivity|];
              eexists _, _; reflexivity|].
      intros _ _ _ _ _. eexists. reflexivity.
Qed.

(** The failures of the taxonomy, one run each: a body that is no JSON, a
    JSON array, a scenario that is a number, a tokenizer that raises, a
    stream that breaks off, and chunks without choices. *)
Example failures_answer_500 :
  fst (run (generate_letter demo_runtime [] Malformed))
  = Done (Response 500 (ErrorBody BadRequest))
  ∧ fst (run (generate_letter demo_runtime [] (Json (JArr []))))
    = Done (Response 500 (ErrorBody AttributeError))
  ∧ fst (run (generate_letter demo_runtime []
                (Json (JObj [(lit "scenario", JNum 7)]))))
    = Done (Response 500 (ErrorBody TypeError))
  ∧ fst (run (generate_letter demo_runtime []
                (scenario_only (lit "a" ++ [0xD800%N]))))
    = Done (Response 500 (ErrorBody UnicodeEncodeError))
  ∧ fst (run (generate_letter other_runtime [] (scenario_only (lit "oo"))))
    = Done (Response 500 (ErrorBody (APIError (lit "quota"))))
  ∧ consume (StreamChunk (Chunk (Some [])) StreamEnd) []
    = Raised IndexError
  ∧ consume (StreamChunk (Chunk None) StreamEnd) []
    = Raised TypeError.
Proof. repeat split; vm_compute; reflexivity. Qed.

(** ** Parsing the request *)

(** C8. A payload that is a JSON object always parses: each of [author],
    [documentType] and [scenario] is the value found under its key, or its
    default ("무명 작가", "단문", "주제 없음") when the key is missing, so
    the empty object yields the three defaults. Parsing raises exactly
    when the payload is not a JSON object, and the handler then answers
    with status 500. *)
Theorem parsing_applies_defaults_and_fails_only_off_objects :
  (∀ (items : list (str * json)) tr,
     parse_request (Json (JObj items)) tr
     = (Done (GenerationRequest
                (default (JStr (lit "무명 작가"))
                   (dict_lookup (lit "author") items))
                (default (JStr (lit "단문"))
                   (dict_lookup (lit "documentType") items))
                (default (JStr (lit "주제 없음"))
                   (dict_lookup (lit "scenario") items))),
        tr))
  ∧ parses_to (Json (JObj []))
      (JStr (lit "무명 작가")) (JStr (lit "단문")) (JStr (lit "주제 없음"))
  ∧ (∀ req,
       (∃ e, fst (run (parse_request req)) = Raised e)
       ↔ ¬ ∃ items, req = Json (JObj items))
  ∧ (∀ rt lexicon req e,
       fst (run (parse_request req)) = Raised e →
       fst (run (generate_letter rt lexicon req))
       = Done (Response 500 (ErrorBody e))).
Proof.
  split; [|split; [|split]].
  - intros items tr. apply parse_request_object.
  - reflexivity.
  - intros req. split.
    + intros [e He] [items ->]. discriminate He.
    + intros Hnot. destruct req as [| |data].
      * exists UnsupportedMediaType. reflexivity.
      * exists BadRequest. reflexivity.
      * destruct data as [| | | | | |items];
          try (exists AttributeError; reflexivity).
        destruct Hnot. exists items. reflexivity.
  - intros rt lexicon req e He.
    rewrite (run_unparsed _ _ _ _ He). reflexivity.
Qed.

(** A key is missing exactly when the lookup finds nothing, and a key
    that is there yields its value. *)
Lemma dict_lookup_None (key : str) (items : list (str * json)) :
  dict_lookup key items = None ↔ key ∉ items.*1.
Proof.
  induction items as [|[k v] items IH]; simpl.
  - split; [intros _ H; apply elem_of_nil in H; exact H|reflexivity].
  - rewrite not_elem_of_cons, <- IH.
    destruct (dict_lookup key items); [split; [discriminate|tauto]|].
    destruct (decide (k = key)) as [->|Hne].
    + split; [discriminate|tauto].
    + split; [intros _; split; [congruence|reflexivity]|reflexivity].
Qed.

(** A value found under a key is kept as it is. *)
Example given_fields_are_kept :
  parses_to
    (Json (JObj [(lit "author", JStr (lit "김소월"));
                 (lit "documentType", JStr (lit "시"))]))
    (JStr (lit "김소월")) (JStr (lit "시")) (JStr (lit "주제 없음")).
Proof. vm_compute. reflexivity. Qed.

(** ** The generated text *)

(** C9. When the handler answers with [isSuccessful: true], it has called
    the generation service once, and the result is the concatenation, in
    arrival order, of the texts of the chunks of the stream it got back,
    which is also what appending them one by one from the left to the
    empty string gives. *)
Theorem successful_result_is_the_concatenated_stream
    (rt : runtime) (lexicon : list str) (req : request) (st : Z)
    (text : str) :
  fst (run (generate_letter rt lexicon req))
  = Done (Response st (Envelope true text)) →
  ∃ sent,
    chat_calls (snd (run (generate_letter rt lexicon req)))
    = [ChatCreate sent]
    ∧ text = concat (fragments (chat_completions_create rt sent))
    ∧ text = foldl (λ generated_text piece, generated_text ++ piece) []
               (fragments (chat_completions_create rt sent)).
Proof.
  intros Hrun.
  pose proof (generate_letter_exit rt lexicon req) as Hexit.
  destruct (run (generate_letter rt lexicon req)) as [o tr].
  simpl in Hrun. subst o.
  inversion Hexit
    as [ | | | | |a d s tokens text' Hp Hletter Htok Hfound Hchat| ]; subst.
  apply consume_fragments in Hchat.
  eexists. split; [reflexivity|]. split; [exact Hchat|].
  rewrite foldl_append. exact Hchat.
Qed.

Lemma successful_result_is_the_concatenated_stream_witness :
  ∃ sent,
    chat_calls (snd (run (generate_letter demo_runtime [lit "바보"]
                            (scenario_only (lit "oo")))))
    = [ChatCreate sent]
    ∧ lit "봄이 왔다."
      = concat (fragments (chat_completions_create demo_runtime sent))
    ∧ lit "봄이 왔다."
      = foldl (λ generated_text piece, generated_text ++ piece) []
          (fragments (chat_completions_create demo_runtime sent)).
Proof.
  apply (successful_result_is_the_concatenated_stream demo_runtime
           [lit "바보"] (scenario_only (lit "oo")) 200 (lit "봄이 왔다.")).
  vm_compute. reflexivity.
Defined.

(** ** The default scenario *)

Lemma default_scenario_has_letter :
  re_search_letter (lit "주제 없음") = true.
Proof. vm_compute. reflexivity. Qed.

(** C10. A JSON object without a [scenario] key is handled with the
    scenario "주제 없음". It holds Hangul syllables, so the request is
    never answered with the elaboration request: the tokenizer is called
    on "주제 없음", and when it returns tokens and no lexicon term matches
    the generation service is called, once. *)
Theorem missing_scenario_is_screened
    (rt : runtime) (lexicon : list str) (items : list (str * json)) :
  runtime_ok rt →
  dict_lookup (lit "scenario") items = None →
  parses_to (Json (JObj items))
    (default (JStr (lit "무명 작가")) (dict_lookup (lit "author") items))
    (default (JStr (lit "단문")) (dict_lookup (lit "documentType") items))
    (JStr (lit "주제 없음"))
  ∧ (∃ c, c ∈ lit "주제 없음" ∧ hangul_syllable c)
  ∧ (∀ st, fst (run (generate_letter rt lexicon (Json (JObj items))))
           ≠ Done (Response st (Envelope false elaborate_message)))
  ∧ morphs_calls (snd (run (generate_letter rt lexicon (Json (JObj items)))))
    = [Morphs (lit "주제 없음")]
  ∧ (∀ tokens,
       tagger_morphs rt (lit "주제 없음") = Done tokens →
       (∀ w, ¬ matched lexicon (lit "주제 없음") tokens w) →
       ∃ sent,
         chat_calls
           (snd (run (generate_letter rt lexicon (Json (JObj items)))))
         = [ChatCreate sent]).
Proof.
  intros Hok Hmissing.
  assert (parses_to (Json (JObj items))
            (default (JStr (lit "무명 작가")) (dict_lookup (lit "author") items))
            (default (JStr (lit "단문"))
               (dict_lookup (lit "documentType") items))
            (JStr (lit "주제 없음"))) as Hp.
  { unfold parses_to, run. rewrite parse_request_object, Hmissing.
    reflexivity. }
  assert (∃ c, c ∈ lit "주제 없음" ∧ hangul_syllable c) as Hhangul.
  { exists 51452%N. split; [vm_compute; left|].
    unfold hangul_syllable. lia. }
  split; [exact Hp|]. split; [exact Hhangul|].
  rewrite (run_parsed _ _ _ _ _ _ Hp), default_scenario_has_letter.
  destruct (tagger_morphs rt (lit "주제 없음")) as [tokens|e].
  - destruct (list_of_set rt _) as [|w ws] eqn:Hfound.
    + destruct (consume _ _) as [text|e].
      * split; [intros st H; discriminate H|].
        split; [reflexivity|]. intros _ _ _. eexists. reflexivity.
      * split; [intros st H; discriminate H|].
        split; [reflexivity|]. intros _ _ _. eexists. reflexivity.
    + split; [|split; [reflexivity|]].
      * intros st H. apply envelope_result_inj in H.
        exact (profanity_prefix_elaborate _ H).
      * intros tokens' [= <-] Hnone.
        apply (screened_nil rt Hok) in Hnone.
        rewrite Hnone in Hfound. discriminate Hfound.
  - split; [intros st H; discriminate H|].
    split; [reflexivity|]. intros tokens H. discriminate H.
Qed.

Lemma missing_scenario_is_screened_witness :
  parses_to (Json (JObj []))
    (default (JStr (lit "무명 작가")) (dict_lookup (lit "author") []))
    (default (JStr (lit "단문")) (dict_lookup (lit "documentType") []))
    (JStr (lit "주제 없음"))
  ∧ (∃ c, c ∈ lit "주제 없음" ∧ hangul_syllable c)
  ∧ (∀ st, fst (run (generate_letter demo_runtime [lit "바보"]
                       (Json (JObj []))))
           ≠ Done (Response st (Envelope false elaborate_message)))
  ∧ morphs_calls (snd (run (generate_letter demo_runtime [lit "바보"]
                              (Json (JObj [])))))
    = [Morphs (lit "주제 없음")]
  ∧ (∀ tokens,
       tagger_morphs demo_runtime (lit "주제 없음") = Done tokens →
       (∀ w, ¬ matched [lit "바보"] (lit "주제 없음") tokens w) →
       ∃ sent,
         chat_calls
           (snd (run (generate_letter demo_runtime [lit "바보"]
                        (Json (JObj [])))))
         = [ChatCreate sent]).
Proof.
  apply (missing_scenario_is_screened demo_runtime [lit "바보"] []
           demo_runtime_ok).
  reflexivity.
Defined.

(** The empty object is answered with a generated text. *)
Example empty_object_is_generated :
  fst (run (generate_letter demo_runtime [lit "바보"] (Json (JObj []))))
  = Done (Response 200 (Envelope true (lit "봄이 왔다."))).
Proof. vm_compute. reflexivity. Qed.

(** * Further properties of the handler *)

(** ** Failures before the screening *)

(** X1. A [scenario] key that is present with a value that is no string
    (null, a number, a list, an object) is not replaced by the default:
    the presence check raises on it, the handler answers 500 with the
    [TypeError], and neither the tokenizer nor the generation service is
    called. *)
Theorem scenario_that_is_no_text_fails_before_screening
    (rt : runtime) (lexicon : list str) (req : request) (a d sc : json) :
  parses_to req a d sc →
  (∀ s, sc ≠ JStr s) →
  run (generate_letter rt lexicon req)
  = (Done (Response 500 (ErrorBody TypeError)), [Log INFO; Log ERROR]).
Proof.
  intros Hp Hsc. rewrite (run_parsed _ _ _ _ _ _ Hp).
  destruct sc as [| | | |s| |]; try reflexivity.
  destruct (Hsc s). reflexivity.
Qed.

Lemma scenario_that_is_no_text_fails_before_screening_witness :
  run (generate_letter demo_runtime []
         (Json (JObj [(lit "scenario", JNull)])))
  = (Done (Response 500 (ErrorBody TypeError)), [Log INFO; Log ERROR]).
Proof.
  apply (scenario_that_is_no_text_fails_before_screening demo_runtime []
           (Json (JObj [(lit "scenario", JNull)]))
           (JStr (lit "무명 작가")) (JStr (lit "단문")) JNull).
  - vm_compute. reflexivity.
  - intros s H. discriminate H.
Defined.

(** ** What a rejection does not do *)

(** X2. A scenario with a letter, whose tokens the tokenizer returns, and
    with a matched lexicon term is tokenized once and rejected without
    any call to the generation service: the trace of the run is the
    request log, the tokenizer call and the warning. *)
Theorem profanity_rejection_never_calls_the_service
    (rt : runtime) (lexicon : list str) (req : request) (a d : json)
    (s w : str) (tokens : list str) :
  runtime_ok rt →
  parses_to req a d (JStr s) →
  (∃ c, c ∈ s ∧ (latin_letter c ∨ hangul_syllable c)) →
  tagger_morphs rt s = Done tokens →
  matched lexicon s tokens w →
  snd (run (generate_letter rt lexicon req))
  = [Log INFO; Morphs s; Log WARNING]
  ∧ chat_calls (snd (run (generate_letter rt lexicon req))) = [].
Proof.
  intros Hok Hp Hletter Htok Hw. apply re_search_letter_spec in Hletter.
  rewrite (run_tokenized _ _ _ _ _ _ _ Hp Hletter Htok).
  destruct (list_of_set rt _) as [|w' ws] eqn:Hfound.
  - destruct (proj1 (screened_nil rt Hok lexicon s tokens) Hfound w Hw).
  - split; reflexivity.
Qed.

Lemma profanity_rejection_never_calls_the_service_witness :
  snd (run (generate_letter demo_runtime [lit "바보"]
              (scenario_only (lit "너는 바보야"))))
  = [Log INFO; Morphs (lit "너는 바보야"); Log WARNING]
  ∧ chat_calls (snd (run (generate_letter demo_runtime [lit "바보"]
                            (scenario_only (lit "너는 바보야"))))) = [].
Proof.
  apply (profanity_rejection_never_calls_the_service demo_runtime
           [lit "바보"] (scenario_only (lit "너는 바보야"))
           (JStr (lit "무명 작가")) (JStr (lit "단문"))
           (lit "너는 바보야") (lit "바보") [lit "너는"; lit "바보야"]
           demo_runtime_ok (scenario_only_parses _)).
  - apply re_search_letter_spec. exact babo_letter.
  - vm_compute. reflexivity.
  - split; [left|]. left. exact babo_occurs.
Defined.

(** ** How a stream ends *)

Section stream_ends.
Implicit Types (delivered : list chat_chunk) (rest : chat_stream)
  (acc : str).

(** Chunks that each have a choice add their texts; what comes after them
    decides the outcome. *)
Lemma consume_stream_of delivered rest acc :
  Forall has_choice delivered →
  consume (stream_of delivered rest) acc
  = consume rest (acc ++ concat (fragment <$> delivered)).
Proof.
  intros Hall. revert acc.
  induction Hall as [|chunk delivered Hchunk _ IH]; intros acc; simpl.
  - rewrite app_nil_r. reflexivity.
  - destruct Hchunk as (choice0 & others & Hchunk).
    unfold fragment at 1. rewrite Hchunk.
    destruct (truthy_content (delta choice0)) as [text|]; simpl.
    + rewrite IH, app_assoc. reflexivity.
    + apply IH.
Qed.
End stream_ends.

(** X3. When the scenario is clean, its tokens having come back, and the
    service delivers chunks that each have a choice and then ends the
    stream, the handler answers 200 with [isSuccessful: true] and the
    concatenation of the chunk texts; a stream without text gives the
    empty result. *)
Theorem complete_stream_is_returned_whole
    (rt : runtime) (lexicon : list str) (req : request) (a d : json)
    (s : str) (tokens : list str) (delivered : list chat_chunk) :
  runtime_ok rt →
  parses_to req a d (JStr s) →
  (∃ c, c ∈ s ∧ (latin_letter c ∨ hangul_syllable c)) →
  tagger_morphs rt s = Done tokens →
  (∀ w, ¬ matched lexicon s tokens w) →
  chat_completions_create rt
    (completion_request (system_prompt token_limit)
       (user_prompt (py_str rt) a d s))
  = stream_of delivered StreamEnd →
  Forall has_choice delivered →
  fst (run (generate_letter rt lexicon req))
  = Done (Response 200 (Envelope true (concat (fragment <$> delivered)))).
Proof.
  intros Hok Hp Hletter Htok Hnone Hchat Hall.
  rewrite (response_clean rt Hok lexicon _ _ _ _ _ Hp Hletter Htok Hnone).
  rewrite Hchat, (consume_stream_of _ _ _ Hall). reflexivity.
Qed.

Lemma complete_stream_is_returned_whole_witness :
  fst (run (generate_letter
              (demo_runtime_with
                 (stream_of
                    [Chunk (Some [Choice (Some (Delta (Some (lit "봄"))))]);
                     Chunk (Some [Choice None]);
                     Chunk (Some [Choice (Some (Delta (Some (lit "날"))))])]
                    StreamEnd))
              [lit "바보"] (scenario_only (lit "oo"))))
  = Done (Response 200
            (Envelope true
               (concat (fragment <$>
                  [Chunk (Some [Choice (Some (Delta (Some (lit "봄"))))]);
                   Chunk (Some [Choice None]);
                   Chunk (Some [Choice (Some (Delta (Some (lit "날"))))])])))).
Proof.
  apply (complete_stream_is_returned_whole _ _ _ _ _ _ [lit "oo"] _
           (demo_runtime_with_ok _) (scenario_only_parses _) letter_of_oo
           demo_morphs_oo).
  - apply found_words_nil. vm_compute. reflexivity.
  - reflexivity.
  - repeat constructor; eexists _, _; reflexivity.
Defined.

(** X4. When the stream breaks off with an exception after chunks that
    each have a choice, the text received so far is dropped: the handler
    answers 500 with that exception, whatever was delivered before. *)
Theorem broken_stream_drops_the_partial_text
    (rt : runtime) (lexicon : list str) (req : request) (a d : json)
    (s : str) (tokens : list str) (delivered : list chat_chunk) (e : exn) :
  runtime_ok rt →
  parses_to req a d (JStr s) →
  (∃ c, c ∈ s ∧ (latin_letter c ∨ hangul_syllable c)) →
  tagger_morphs rt s = Done tokens →
  (∀ w, ¬ matched lexicon s tokens w) →
  chat_completions_create rt
    (completion_request (system_prompt token_limit)
       (user_prompt (py_str rt) a d s))
  = stream_of delivered (StreamError e) →
  Forall has_choice delivered →
  fst (run (generate_letter rt lexicon req))
  = Done (Response 500 (ErrorBody e)).
Proof.
  intros Hok Hp Hletter Htok Hnone Hchat Hall.
  rewrite (response_clean rt Hok lexicon _ _ _ _ _ Hp Hletter Htok Hnone).
  rewrite Hchat, (consume_stream_of _ _ _ Hall). reflexivity.
Qed.

Lemma broken_stream_drops_the_partial_text_witness :
  fst (run (generate_letter
              (demo_runtime_with
                 (stream_of
                    [Chunk (Some [Choice (Some (Delta (Some (lit "봄"))))])]
                    (StreamError (APIError (lit "connection reset")))))
              [lit "바보"] (scenario_only (lit "oo"))))
  = Done (Response 500 (ErrorBody (APIError (lit "connection reset")))).
Proof.
  apply (broken_stream_drops_the_partial_text _ _ _ _ _ _ [lit "oo"]
           [Chunk (Some [Choice (Some (Delta (Some (lit "봄"))))])] _
           (demo_runtime_with_ok _) (scenario_only_parses _) letter_of_oo
           demo_morphs_oo).
  - apply found_words_nil. vm_compute. reflexivity.
  - reflexivity.
  - repeat constructor; eexists _, _; reflexivity.
Defined.

(** X5. A chunk whose list of choices is empty makes the handler fail
    with [IndexError] (status 500), whatever text came before it and
    whatever the stream would have delivered after it. *)
Theorem chunk_without_choices_fails_the_request
    (rt : runtime) (lexicon : list str) (req : request) (a d : json)
    (s : str) (tokens : list str) (delivered : list chat_chunk)
    (rest : chat_stream) :
  runtime_ok rt →
  parses_to req a d (JStr s) →
  (∃ c, c ∈ s ∧ (latin_letter c ∨ hangul_syllable c)) →
  tagger_morphs rt s = Done tokens →
  (∀ w, ¬ matched lexicon s tokens w) →
  chat_completions_create rt
    (completion_request (system_prompt token_limit)
       (user_prompt (py_str rt) a d s))
  = stream_of delivered (StreamChunk (Chunk (Some [])) rest) →
  Forall has_choice delivered →
  fst (run (generate_letter rt lexicon req))
  = Done (Response 500 (ErrorBody IndexError)).
Proof.
  intros Hok Hp Hletter Htok Hnone Hchat Hall.
  rewrite (response_clean rt Hok lexicon _ _ _ _ _ Hp Hletter Htok Hnone).
  rewrite Hchat, (consume_stream_of _ _ _ Hall). reflexivity.
Qed.

Lemma chunk_without_choices_fails_the_request_witness :
  fst (run (generate_letter
              (demo_runtime_with
                 (stream_of
                    [Chunk (Some [Choice (Some (Delta (Some (lit "봄"))))])]
                    (StreamChunk (Chunk (Some [])) StreamEnd)))
              [lit "바보"] (scenario_only (lit "oo"))))
  = Done (Response 500 (ErrorBody IndexError)).
Proof.
  apply (chunk_without_choices_fails_the_request _ _ _ _ _ _ [lit "oo"]
           [Chunk (Some [Choice (Some (Delta (Some (lit "봄"))))])] StreamEnd
           (demo_runtime_with_ok _) (scenario_only_parses _) letter_of_oo
           demo_morphs_oo).
  - apply found_words_nil. vm_compute. reflexivity.
  - reflexivity.
  - repeat constructor; eexists _, _; reflexivity.
Defined.

(** X6. Only the first choice of a chunk is read: cutting every chunk of
    a stream down to its first choice changes neither the text that is
    accumulated nor the exception that is raised. *)
Theorem only_the_first_choice_is_read (chat : chat_stream) (acc : str) :
  consume (first_choices chat) acc = consume chat acc.
Proof.
  revert acc. induction chat as [|chunk rest IH|e]; intros acc; simpl.
  - reflexivity.
  - destruct (choices chunk) as [[|choice0 others]|]; simpl;
      [reflexivity| |reflexivity].
    destruct (truthy_content (delta choice0)); apply IH.
  - reflexivity.
Qed.

(** ** The substring policy *)

Lemma occurs_in_refl (w : str) : occurs_in w w.
Proof. exists [], []. rewrite app_nil_r. reflexivity. Qed.

Lemma occurs_in_nil (text : str) : occurs_in [] text.
Proof. exists [], text. reflexivity. Qed.

Lemma occurs_in_app (w text pre post : str) :
  occurs_in w text → occurs_in w (pre ++ text ++ post).
Proof.
  intros (p & q & ->). exists (pre ++ p), (q ++ post).
  rewrite <- !app_assoc. reflexivity.
Qed.

Lemma occurs_in_join (sep w : str) (words : list str) :
  w ∈ words → occurs_in w (join sep words).
Proof.
  induction words as [|x words IH]; intros Hw.
  - apply elem_of_nil in Hw. destruct Hw.
  - destruct words as [|y words].
    + apply elem_of_cons in Hw as [->|Hw]; [apply occurs_in_refl|].
      apply elem_of_nil in Hw. destruct Hw.
    + change (join sep (x :: y :: words))
        with (x ++ sep ++ join sep (y :: words)).
      apply elem_of_cons in Hw as [->|Hw].
      * exists [], (sep ++ join sep (y :: words)). reflexivity.
      * destruct (IH Hw) as (p & q & Heq).
        exists (x ++ sep ++ p), q. rewrite Heq, <- !app_assoc. reflexivity.
Qed.


Section rejection.
Context (rt : runtime) (Hok : runtime_ok rt) (lexicon : list str).

(** The reply to a tokenized scenario with a letter and a match, with the
    list that was joined. *)
Lemma run_rejected (req : request) (a d : json) (s w : str)
    (tokens : list str) :
  parses_to req a d (JStr s) →
  (∃ c, c ∈ s ∧ (latin_letter c ∨ hangul_syllable c)) →
  tagger_morphs rt s = Done tokens →
  matched lexicon s tokens w →
  run (generate_letter rt lexicon req)
  = (Done (Response 200
             (Envelope false
                (profanity_prefix
                 ++ join (lit ", ")
                      (list_of_set rt (found_words lexicon s tokens))))),
     [Log INFO; Morphs s; Log WARNING]).
Proof using Hok.
  intros Hp Hletter Htok Hw. apply re_search_letter_spec in Hletter.
  rewrite (run_tokenized _ _ _ _ _ _ _ Hp Hletter Htok).
  destruct (list_of_set rt _) as [|w' ws] eqn:Hfound; [|reflexivity].
  destruct (proj1 (screened_nil rt Hok lexicon s tokens) Hfound w Hw).
Qed.

(** A lexicon term in the raw text settles the run up to what the
    tokenizer does: a rejection that lists the term, or its exception. *)
Lemma run_substring_match (req : request) (a d : json) (s w : str) :
  parses_to req a d (JStr s) →
  (∃ c, c ∈ s ∧ (latin_letter c ∨ hangul_syllable c)) →
  w ∈ lexicon → occurs_in w s →
  chat_calls (snd (run (generate_letter rt lexicon req))) = []
  ∧ (∀ tokens,
       tagger_morphs rt s = Done tokens →
       ∃ listed,
         fst (run (generate_letter rt lexicon req))
         = Done (Response 200
                   (Envelope false
                      (profanity_prefix ++ join (lit ", ") listed)))
         ∧ w ∈ listed)
  ∧ (∀ e,
       tagger_morphs rt s = Raised e →
       fst (run (generate_letter rt lexicon req))
       = Done (Response 500 (ErrorBody e))).
Proof using Hok.
  intros Hp Hletter Hin Hocc.
  destruct (tagger_morphs rt s) as [tokens|e] eqn:Htok.
  - assert (matched lexicon s tokens w) as Hw
      by (split; [exact Hin|left; exact Hocc]).
    rewrite (run_rejected _ _ _ _ _ _ Hp Hletter Htok Hw).
    split; [reflexivity|]. split.
    + intros tokens' [= <-]. eexists. split; [reflexivity|].
      apply (elem_of_screened rt Hok). exact Hw.
    + intros e H. discriminate H.
  - apply re_search_letter_spec in Hletter.
    rewrite (run_parsed _ _ _ _ _ _ Hp), Hletter, Htok.
    split; [reflexivity|]. split.
    + intros tokens H. discriminate H.
    + intros e' [= <-]. reflexivity.
Qed.
End rejection.

(** X7. An empty string in the lexicon keeps every scenario that passes
    the presence check away from the generation service, because the
    empty string occurs in every text: when the tokenizer returns, the
    request is rejected with the empty term listed, and when it raises,
    the handler answers 500. *)
Theorem empty_lexicon_term_blocks_every_scenario
    (rt : runtime) (lexicon : list str) (req : request) (a d : json)
    (s : str) :
  runtime_ok rt →
  [] ∈ lexicon →
  parses_to req a d (JStr s) →
  (∃ c, c ∈ s ∧ (latin_letter c ∨ hangul_syllable c)) →
  chat_calls (snd (run (generate_letter rt lexicon req))) = []
  ∧ (∀ tokens,
       tagger_morphs rt s = Done tokens →
       ∃ listed,
         fst (run (generate_letter rt lexicon req))
         = Done (Response 200
                   (Envelope false
                      (profanity_prefix ++ join (lit ", ") listed)))
         ∧ [] ∈ listed)
  ∧ (∀ e,
       tagger_morphs rt s = Raised e →
       fst (run (generate_letter rt lexicon req))
       = Done (Response 500 (ErrorBody e))).
Proof.
  intros Hok Hin Hp Hletter.
  exact (run_substring_match rt Hok lexicon _ _ _ _ _ Hp Hletter Hin
           (occurs_in_nil s)).
Qed.

Lemma empty_lexicon_term_blocks_every_scenario_witness :
  chat_calls (snd (run (generate_letter demo_runtime [lit "바보"; []]
                          (scenario_only (lit "oo"))))) = []
  ∧ (∀ tokens,
       tagger_morphs demo_runtime (lit "oo") = Done tokens →
       ∃ listed,
         fst (run (generate_letter demo_runtime [lit "바보"; []]
                     (scenario_only (lit "oo"))))
         = Done (Response 200
                   (Envelope false
                      (profanity_prefix ++ join (lit ", ") listed)))
         ∧ [] ∈ listed)
  ∧ (∀ e,
       tagger_morphs demo_runtime (lit "oo") = Raised e →
       fst (run (generate_letter demo_runtime [lit "바보"; []]
                   (scenario_only (lit "oo"))))
       = Done (Response 500 (ErrorBody e))).
Proof.
  apply (empty_lexicon_term_blocks_every_scenario demo_runtime
           [lit "바보"; []] (scenario_only (lit "oo"))
           (JStr (lit "무명 작가")) (JStr (lit "단문")) (lit "oo")
           demo_runtime_ok).
  - right. left.
  - apply scenario_only_parses.
  - exact letter_of_oo.
Defined.



(** X9. Every term that a rejection reports occurs verbatim in the result
    string: for a scenario with a letter whose tokens came back and each
    lexicon term matched in it, the result of the reply contains that
    term. *)
Theorem matched_term_occurs_in_the_result
    (rt : runtime) (lexicon : list str) (req : request) (a d : json)
    (s w : str) (tokens : list str) :
  runtime_ok rt →
  parses_to req a d (JStr s) →
  (∃ c, c ∈ s ∧ (latin_letter c ∨ hangul_syllable c)) →
  tagger_morphs rt s = Done tokens →
  matched lexicon s tokens w →
  ∃ result,
    fst (run (generate_letter rt lexicon req))
    = Done (Response 200 (Envelope false result))
    ∧ occurs_in w result.
Proof.
  intros Hok Hp Hletter Htok Hw.
  rewrite (run_rejected rt Hok lexicon _ _ _ _ _ _ Hp Hletter Htok Hw).
  eexists. split; [reflexivity|].
  assert (occurs_in w
            (join (lit ", ")
               (list_of_set rt (found_words lexicon s tokens))))
    as Hj by (apply occurs_in_join, (elem_of_screened rt Hok), Hw).
  apply (occurs_in_app _ _ profanity_prefix []) in Hj.
  rewrite app_nil_r in Hj. exact Hj.
Qed.

Lemma matched_term_occurs_in_the_result_witness :
  ∃ result,
    fst (run (generate_letter demo_runtime [lit "보"; lit "바보"]
                (scenario_only (lit "너는 바보야"))))
    = Done (Response 200 (Envelope false result))
    ∧ occurs_in (lit "바보") result.
Proof.
  apply (matched_term_occurs_in_the_result demo_runtime
           [lit "보"; lit "바보"] (scenario_only (lit "너는 바보야"))
           (JStr (lit "무명 작가")) (JStr (lit "단문"))
           (lit "너는 바보야") (lit "바보") [lit "너는"; lit "바보야"]
           demo_runtime_ok (scenario_only_parses _)).
  - apply re_search_letter_spec. exact babo_letter.
  - vm_compute. reflexivity.
  - split; [right; left|]. left. exact babo_occurs.
Defined.

(** ** The lexicon *)

Section lexicon.
Context (rt : runtime) (Hok : runtime_ok rt).
Implicit Types (lexicon tokens : list str) (s w : str).

Lemma screened_subseteq lexicon1 lexicon2 s tokens :
  (∀ w, w ∈ lexicon1 → w ∈ lexicon2) →
  list_of_set rt (found_words lexicon2 s tokens) = [] →
  list_of_set rt (found_words lexicon1 s tokens) = [].
Proof using Hok.
  intros Hsub Hnil. apply (screened_nil rt Hok).
  intros w [Hw Hm].
  apply (proj1 (screened_nil rt Hok lexicon2 s tokens) Hnil w).
  split; [apply Hsub, Hw|exact Hm].
Qed.

Lemma screened_same_terms lexicon1 lexicon2 s tokens :
  (∀ w, w ∈ lexicon1 ↔ w ∈ lexicon2) →
  list_of_set rt (found_words lexicon1 s tokens)
  ≡ₚ list_of_set rt (found_words lexicon2 s tokens).
Proof using Hok.
  intros Hsame. apply NoDup_Permutation.
  - apply NoDup_list_of_set, Hok.
  - apply NoDup_list_of_set, Hok.
  - intros w. rewrite !(elem_of_screened rt Hok). unfold matched.
    rewrite Hsame. reflexivity.
Qed.
End lexicon.

(** X10. The lexicon is read as a set: two lexicons with the same terms,
    in any order and with any repetitions, let the same requests through
    to the generation service, and give the same reply except that a
    rejection may list the same matched terms in another order. *)
Theorem lexicon_order_and_repetition_do_not_matter
    (rt : runtime) (lexicon1 lexicon2 : list str) (req : request) :
  runtime_ok rt →
  (∀ w, w ∈ lexicon1 ↔ w ∈ lexicon2) →
  snd (run (generate_letter rt lexicon1 req))
  = snd (run (generate_letter rt lexicon2 req))
  ∧ (fst (run (generate_letter rt lexicon1 req))
     = fst (run (generate_letter rt lexicon2 req))
     ∨ ∃ listed1 listed2,
         listed1 ≡ₚ listed2
         ∧ fst (run (generate_letter rt lexicon1 req))
           = Done (Response 200
                     (Envelope false
                        (profanity_prefix ++ join (lit ", ") listed1)))
         ∧ fst (run (generate_letter rt lexicon2 req))
           = Done (Response 200
                     (Envelope false
                        (profanity_prefix ++ join (lit ", ") listed2)))).
Proof.
  intros Hok Hsame.
  destruct (parse_request_cases req) as [(e & He)|(a & d & sc & Hp)].
  - rewrite !(run_unparsed _ _ _ _ He). split; [reflexivity|left; reflexivity].
  - rewrite !(run_parsed _ _ _ _ _ _ Hp).
    destruct sc as [| | | |s| |];
      try (split; [reflexivity|left; reflexivity]).
    destruct (re_search_letter s); [|split; [reflexivity|left; reflexivity]].
    destruct (tagger_morphs rt s) as [tokens|e];
      [|split; [reflexivity|left; reflexivity]].
    pose proof (screened_same_terms rt Hok lexicon1 lexicon2 s tokens Hsame)
      as Hperm.
    destruct (list_of_set rt (found_words lexicon1 s _)) as [|w1 ws1];
      destruct (list_of_set rt (found_words lexicon2 s _)) as [|w2 ws2].
    + split; [reflexivity|left; reflexivity].
    + apply Permutation_nil_l in Hperm. discriminate Hperm.
    + apply Permutation_nil_r in Hperm. discriminate Hperm.
    + split; [reflexivity|]. right. exists (w1 :: ws1), (w2 :: ws2).
      split; [exact Hperm|]. split; reflexivity.
Qed.

Lemma lexicon_order_and_repetition_do_not_matter_witness :
  snd (run (generate_letter demo_runtime [lit "보"; lit "바보"]
              (scenario_only (lit "너는 바보야"))))
  = snd (run (generate_letter demo_runtime [lit "바보"; lit "보"; lit "바보"]
                (scenario_only (lit "너는 바보야"))))
  ∧ (fst (run (generate_letter demo_runtime [lit "보"; lit "바보"]
                 (scenario_only (lit "너는 바보야"))))
     = fst (run (generate_letter demo_runtime
                   [lit "바보"; lit "보"; lit "바보"]
                   (scenario_only (lit "너는 바보야"))))
     ∨ ∃ listed1 listed2,
         listed1 ≡ₚ listed2
         ∧ fst (run (generate_letter demo_runtime [lit "보"; lit "바보"]
                       (scenario_only (lit "너는 바보야"))))
           = Done (Response 200
                     (Envelope false
                        (profanity_prefix ++ join (lit ", ") listed1)))
         ∧ fst (run (generate_letter demo_runtime
                       [lit "바보"; lit "보"; lit "바보"]
                       (scenario_only (lit "너는 바보야"))))
           = Done (Response 200
                     (Envelope false
                        (profanity_prefix ++ join (lit ", ") listed2)))).
Proof.
  apply (lexicon_order_and_repetition_do_not_matter demo_runtime
           [lit "보"; lit "바보"] [lit "바보"; lit "보"; lit "바보"]
           (scenario_only (lit "너는 바보야")) demo_runtime_ok).
  intros w. rewrite !elem_of_cons, !elem_of_nil. tauto.
Defined.

(** X11. Adding terms to the lexicon can only block more: with a lexicon
    contained in another, every request that the smaller one rejects the
    larger one rejects too, and every request that reaches the generation
    service under the larger one reaches it under the smaller one, with
    the same request sent. *)
Theorem larger_lexicon_blocks_more
    (rt : runtime) (lexicon1 lexicon2 : list str) (req : request) :
  runtime_ok rt →
  (∀ w, w ∈ lexicon1 → w ∈ lexicon2) →
  ((∃ result, fst (run (generate_letter rt lexicon1 req))
             = Done (Response 200 (Envelope false result))) →
   ∃ result, fst (run (generate_letter rt lexicon2 req))
             = Done (Response 200 (Envelope false result)))
  ∧ (chat_calls (snd (run (generate_letter rt lexicon2 req))) ≠ [] →
     chat_calls (snd (run (generate_letter rt lexicon1 req)))
     = chat_calls (snd (run (generate_letter rt lexicon2 req)))).
Proof.
  intros Hok Hsub.
  destruct (parse_request_cases req) as [(e & He)|(a & d & sc & Hp)].
  - rewrite !(run_unparsed _ _ _ _ He). split; [intros H; exact H|].
    intros _. reflexivity.
  - rewrite !(run_parsed _ _ _ _ _ _ Hp).
    destruct sc as [| | | |s| |];
      try (split; [intros H; exact H|intros _; reflexivity]).
    destruct (re_search_letter s);
      [|split; [intros H; exact H|intros _; reflexivity]].
    destruct (tagger_morphs rt s) as [tokens|e];
      [|split; [intros H; exact H|intros _; reflexivity]].
    pose proof (screened_subseteq rt Hok lexicon1 lexicon2 s tokens Hsub)
      as Hnil.
    destruct (list_of_set rt (found_words lexicon2 s _)) as [|w2 ws2].
    + rewrite (Hnil eq_refl). split; [intros H; exact H|intros _; reflexivity].
    + split; [intros _; eexists; reflexivity|].
      intros Hcalls. destruct Hcalls. reflexivity.
Qed.

Lemma larger_lexicon_blocks_more_witness :
  ((∃ result, fst (run (generate_letter demo_runtime [lit "바보"]
                         (scenario_only (lit "너는 바보야"))))
             = Done (Response 200 (Envelope false result))) →
   ∃ result, fst (run (generate_letter demo_runtime [lit "멍청이"; lit "바보"]
                         (scenario_only (lit "너는 바보야"))))
             = Done (Response 200 (Envelope false result)))
  ∧ (chat_calls (snd (run (generate_letter demo_runtime
                             [lit "멍청이"; lit "바보"]
                             (scenario_only (lit "너는 바보야"))))) ≠ [] →
     chat_calls (snd (run (generate_letter demo_runtime [lit "바보"]
                             (scenario_only (lit "너는 바보야")))))
     = chat_calls (snd (run (generate_letter demo_runtime
                               [lit "멍청이"; lit "바보"]
                               (scenario_only (lit "너는 바보야")))))).
Proof.
  apply (larger_lexicon_blocks_more demo_runtime
           [lit "바보"] [lit "멍청이"; lit "바보"]
           (scenario_only (lit "너는 바보야")) demo_runtime_ok).
  intros w Hw. right. exact Hw.
Defined.

(** ** Reading a run backwards *)

Section backwards.
Context (rt : runtime) (lexicon : list str).

(** A call to the service in the trace pins down the whole run. *)
Lemma chat_call_in_trace (req : request) (sent : chat_request) :
  ChatCreate sent ∈ snd (run (generate_letter rt lexicon req)) →
  ∃ a d s tokens,
    parses_to req a d (JStr s)
    ∧ re_search_letter s = true
    ∧ tagger_morphs rt s = Done tokens
    ∧ list_of_set rt (found_words lexicon s tokens) = []
    ∧ sent = completion_request (system_prompt token_limit)
               (user_prompt (py_str rt) a d s)
    ∧ morphs_calls (snd (run (generate_letter rt lexicon req))) = [Morphs s]
    ∧ chat_calls (snd (run (generate_letter rt lexicon req)))
      = [ChatCreate sent].
Proof.
  destruct (parse_request_cases req) as [(e & He)|(a & d & sc & Hp)].
  - rewrite (run_unparsed _ _ _ _ He). intros Hin. in_trace Hin.
  - rewrite (run_parsed _ _ _ _ _ _ Hp).
    destruct sc as [| | | |s| |]; try solve [intros Hin; in_trace Hin].
    destruct (re_search_letter s) eqn:Hletter;
      [|solve [intros Hin; in_trace Hin]].
    destruct (tagger_morphs rt s) as [tokens|e] eqn:Htok;
      [|solve [intros Hin; in_trace Hin]].
    destruct (list_of_set rt _) as [|w ws] eqn:Hfound;
      [|solve [intros Hin; in_trace Hin]].
    assert (∀ tr,
      ChatCreate sent
      ∈ [Log INFO; Morphs s;
         ChatCreate (completion_request (system_prompt token_limit)
                       (user_prompt (py_str rt) a d s))] ++ tr →
      (∀ c, c ∈ tr → c = Log ERROR) →
      sent = completion_request (system_prompt token_limit)
               (user_prompt (py_str rt) a d s)) as Hsent.
    { intros tr H Htr. apply elem_of_app in H as [H|H].
      - apply elem_of_cons in H as [H|H]; [discriminate H|].
        apply elem_of_cons in H as [H|H]; [discriminate H|].
        apply elem_of_cons in H as [H|H]; [injection H as ->; reflexivity|].
        apply elem_of_nil in H. destruct H.
      - apply Htr in H. discriminate H. }
    destruct (consume _ _) as [text|e]; intros Hin.
    + exists a, d, s, tokens. rewrite (Hsent [] Hin)
        by (intros c Hc; apply elem_of_nil in Hc; destruct Hc).
      repeat (split; [first [exact Hp|reflexivity|assumption]|]).
      reflexivity.
    + exists a, d, s, tokens. rewrite (Hsent [Log ERROR] Hin)
        by (intros c Hc; apply elem_of_cons in Hc as [->|Hc];
            [reflexivity|apply elem_of_nil in Hc; destruct Hc]).
      repeat (split; [first [exact Hp|reflexivity|assumption]|]).
      reflexivity.
Qed.
End backwards.

(** X12. The generation service is called only for a scenario that was
    screened and found clean: a call in the trace means that the request
    parsed to a scenario string with a Latin letter or Hangul syllable,
    that the tokenizer ran on it before and returned tokens, that no
    lexicon term was matched, and that this call, built from the
    request's three fields, is the only one. *)
Theorem service_is_called_only_after_a_clean_screening
    (rt : runtime) (lexicon : list str) (req : request)
    (sent : chat_request) :
  runtime_ok rt →
  ChatCreate sent ∈ snd (run (generate_letter rt lexicon req)) →
  ∃ a d s tokens,
    parses_to req a d (JStr s)
    ∧ (∃ c, c ∈ s ∧ (latin_letter c ∨ hangul_syllable c))
    ∧ tagger_morphs rt s = Done tokens
    ∧ (∀ w, ¬ matched lexicon s tokens w)
    ∧ sent = completion_request (system_prompt token_limit)
               (user_prompt (py_str rt) a d s)
    ∧ morphs_calls (snd (run (generate_letter rt lexicon req))) = [Morphs s]
    ∧ chat_calls (snd (run (generate_letter rt lexicon req)))
      = [ChatCreate sent].
Proof.
  intros Hok Hin.
  destruct (chat_call_in_trace rt lexicon req sent Hin)
    as (a & d & s & tokens & Hp & Hletter & Htok & Hfound & Hsent & Hm & Hc).
  exists a, d, s, tokens.
  split; [exact Hp|]. split; [apply re_search_letter_spec, Hletter|].
  split; [exact Htok|]. split; [apply (screened_nil rt Hok), Hfound|].
  split; [exact Hsent|]. split; [exact Hm|exact Hc].
Qed.

Lemma service_is_called_only_after_a_clean_screening_witness :
  ∃ a d s tokens,
    parses_to (scenario_only (lit "oo")) a d (JStr s)
    ∧ (∃ c, c ∈ s ∧ (latin_letter c ∨ hangul_syllable c))
    ∧ tagger_morphs demo_runtime s = Done tokens
    ∧ (∀ w, ¬ matched [lit "바보"] s tokens w)
    ∧ completion_request (system_prompt token_limit)
        (user_prompt demo_str (JStr (lit "무명 작가")) (JStr (lit "단문"))
           (lit "oo"))
      = completion_request (system_prompt token_limit)
          (user_prompt (py_str demo_runtime) a d s)
    ∧ morphs_calls (snd (run (generate_letter demo_runtime [lit "바보"]
                                (scenario_only (lit "oo"))))) = [Morphs s]
    ∧ chat_calls (snd (run (generate_letter demo_runtime [lit "바보"]
                              (scenario_only (lit "oo")))))
      = [ChatCreate
           (completion_request (system_prompt token_limit)
              (user_prompt demo_str (JStr (lit "무명 작가"))
                 (JStr (lit "단문")) (lit "oo")))].
Proof.
  apply (service_is_called_only_after_a_clean_screening demo_runtime
           [lit "바보"] (scenario_only (lit "oo")) _ demo_runtime_ok).
  rewrite (run_parsed _ _ _ _ _ _ (scenario_only_parses _)).
  vm_compute. right. right. left.
Defined.

(** X13. The elaboration request is the reply only to a scenario string
    without a Latin letter and without a Hangul syllable: a reply with
    [isSuccessful: false] and that message means that the request parsed
    to such a string and that nothing but the two log records
    happened. *)
Theorem elaboration_reply_means_no_letter
    (rt : runtime) (lexicon : list str) (req : request) (st : Z) :
  fst (run (generate_letter rt lexicon req))
  = Done (Response st (Envelope false elaborate_message)) →
  ∃ a d s,
    parses_to req a d (JStr s)
    ∧ (∀ c, c ∈ s → ¬ latin_letter c ∧ ¬ hangul_syllable c)
    ∧ snd (run (generate_letter rt lexicon req)) = [Log INFO; Log WARNING].
Proof.
  destruct (parse_request_cases req) as [(e & He)|(a & d & sc & Hp)].
  - rewrite (run_unparsed _ _ _ _ He). intros H. discriminate H.
  - rewrite (run_parsed _ _ _ _ _ _ Hp).
    destruct sc as [| | | |s| |]; try solve [intros H; discriminate H].
    destruct (re_search_letter s) eqn:Hletter.
    + destruct (tagger_morphs rt s) as [tokens|e];
        [|intros H; discriminate H].
      destruct (list_of_set rt _) as [|w ws].
      * destruct (consume _ _); intros H; discriminate H.
      * intros H. apply envelope_result_inj in H.
        destruct (profanity_prefix_elaborate _ H).
    + intros _. exists a, d, s. split; [exact Hp|]. split; [|reflexivity].
      intros c Hc. split; intros Hl.
      * assert (re_search_letter s = true) as Ht
          by (apply re_search_letter_spec; exists c;
              split; [exact Hc|left; exact Hl]).
        rewrite Hletter in Ht. discriminate Ht.
      * assert (re_search_letter s = true) as Ht
          by (apply re_search_letter_spec; exists c;
              split; [exact Hc|right; exact Hl]).
        rewrite Hletter in Ht. discriminate Ht.
Qed.

Lemma elaboration_reply_means_no_letter_witness :
  ∃ a d s,
    parses_to (scenario_only (lit "ㅋㅋㅋ")) a d (JStr s)
    ∧ (∀ c, c ∈ s → ¬ latin_letter c ∧ ¬ hangul_syllable c)
    ∧ snd (run (generate_letter demo_runtime [lit "ㅋ"]
                  (scenario_only (lit "ㅋㅋㅋ"))))
      = [Log INFO; Log WARNING].
Proof.
  apply (elaboration_reply_means_no_letter demo_runtime [lit "ㅋ"]
           (scenario_only (lit "ㅋㅋㅋ")) 200).
  vm_compute. reflexivity.
Defined.

(** X14. Only the scenario is screened. Two requests with the same
    scenario string and any authors and document types, also ones that
    hold lexicon terms, are tokenized alike, reach the generation service
    or not alike, and are rejected alike, with the same result. *)
Theorem author_and_document_type_are_not_screened
    (rt : runtime) (lexicon : list str) (req1 req2 : request)
    (a1 d1 a2 d2 : json) (s : str) :
  parses_to req1 a1 d1 (JStr s) →
  parses_to req2 a2 d2 (JStr s) →
  morphs_calls (snd (run (generate_letter rt lexicon req1)))
  = morphs_calls (snd (run (generate_letter rt lexicon req2)))
  ∧ (chat_calls (snd (run (generate_letter rt lexicon req1))) = []
     ↔ chat_calls (snd (run (generate_letter rt lexicon req2))) = [])
  ∧ (∀ result,
       fst (run (generate_letter rt lexicon req1))
       = Done (Response 200 (Envelope false result))
       ↔ fst (run (generate_letter rt lexicon req2))
         = Done (Response 200 (Envelope false result))).
Proof.
  intros Hp1 Hp2.
  rewrite (morphs_calls_parsed _ _ _ _ _ _ Hp1),
    (morphs_calls_parsed _ _ _ _ _ _ Hp2),
    (chat_calls_parsed _ _ _ _ _ _ Hp1), (chat_calls_parsed _ _ _ _ _ _ Hp2),
    (run_parsed _ _ _ _ _ _ Hp1), (run_parsed _ _ _ _ _ _ Hp2).
  split; [reflexivity|].
  destruct (re_search_letter s); [|split; [reflexivity|intros; reflexivity]].
  destruct (tagger_morphs rt s) as [tokens|e];
    [|split; [reflexivity|intros; reflexivity]].
  destruct (list_of_set rt _) as [|w ws];
    [|split; [reflexivity|intros; reflexivity]].
  split; [split; intros H; discriminate H|].
  intros result.
  destruct (consume _ _), (consume _ _); split; intros H; discriminate H.
Qed.

Lemma author_and_document_type_are_not_screened_witness :
  morphs_calls (snd (run (generate_letter demo_runtime [lit "바보"]
                            (scenario_only (lit "oo")))))
  = morphs_calls
      (snd (run (generate_letter demo_runtime [lit "바보"]
                   (Json (JObj [(lit "author", JStr (lit "바보"));
                                (lit "scenario", JStr (lit "oo"))])))))
  ∧ (chat_calls (snd (run (generate_letter demo_runtime [lit "바보"]
                             (scenario_only (lit "oo"))))) = []
     ↔ chat_calls
         (snd (run (generate_letter demo_runtime [lit "바보"]
                      (Json (JObj [(lit "author", JStr (lit "바보"));
                                   (lit "scenario", JStr (lit "oo"))])))))
       = [])
  ∧ (∀ result,
       fst (run (generate_letter demo_runtime [lit "바보"]
                   (scenario_only (lit "oo"))))
       = Done (Response 200 (Envelope false result))
       ↔ fst (run (generate_letter demo_runtime [lit "바보"]
                     (Json (JObj [(lit "author", JStr (lit "바보"));
                                  (lit "scenario", JStr (lit "oo"))]))))
         = Done (Response 200 (Envelope false result))).
Proof.
  apply (author_and_document_type_are_not_screened demo_runtime [lit "바보"]
           (scenario_only (lit "oo"))
           (Json (JObj [(lit "author", JStr (lit "바보"));
                        (lit "scenario", JStr (lit "oo"))]))
           (JStr (lit "무명 작가")) (JStr (lit "단문"))
           (JStr (lit "바보")) (JStr (lit "단문")) (lit "oo")).
  - apply scenario_only_parses.
  - vm_compute. reflexivity.
Defined.

(** ** The prompt *)

Section prompt.
Context (f : json → str).
Implicit Types (a d : json) (s : str).

Lemma user_prompt_author a d s : occurs_in (f a) (user_prompt f a d s).
Proof.
  unfold user_prompt.
  exists (lit "다음 조건에 따라 글을 작성해 주세요." ++ nl ++ nl ++ lit "- 작가: ").
  eexists. rewrite <- !app_assoc. reflexivity.
Qed.

Lemma user_prompt_document_type a d s :
  occurs_in (f d) (user_prompt f a d s).
Proof.
  unfold user_prompt.
  exists (lit "다음 조건에 따라 글을 작성해 주세요." ++ nl ++ nl
          ++ lit "- 작가: " ++ f a ++ nl ++ lit "- 글의 종류: ").
  eexists. rewrite <- !app_assoc. reflexivity.
Qed.

Lemma user_prompt_scenario a d s : occurs_in s (user_prompt f a d s).
Proof.
  unfold user_prompt.
  exists (lit "다음 조건에 따라 글을 작성해 주세요." ++ nl ++ nl
          ++ lit "- 작가: " ++ f a ++ nl ++ lit "- 글의 종류: " ++ f d ++ nl
          ++ lit "- 글의 주제 및 상황: ").
  eexists. rewrite <- !app_assoc. reflexivity.
Qed.
End prompt.

(** X15. Whatever is sent to the service holds the three fields as they
    came: when a request whose fields are strings leads to a call, the
    call has a system and a user message, and the content of the user
    message contains the scenario, the author and the document type
    verbatim, with no escaping and no truncation. *)
Theorem fields_reach_the_service_verbatim
    (rt : runtime) (lexicon : list str) (req : request) (a d s : str)
    (sent : chat_request) :
  runtime_ok rt →
  parses_to req (JStr a) (JStr d) (JStr s) →
  ChatCreate sent ∈ snd (run (generate_letter rt lexicon req)) →
  ∃ system user,
    messages sent
    = [Message (lit "system") system; Message (lit "user") user]
    ∧ occurs_in a user ∧ occurs_in d user ∧ occurs_in s user.
Proof.
  intros Hok Hp Hin.
  destruct (chat_call_in_trace rt lexicon req sent Hin)
    as (a' & d' & s' & tokens & Hp' & _ & _ & _ & -> & _ & _).
  destruct (parses_to_inj _ _ _ _ _ _ _ Hp Hp') as (<- & <- & [= <-]).
  eexists _, _. split; [reflexivity|]. split; [|split].
  - rewrite <- (py_str_str rt Hok a) at 1. apply user_prompt_author.
  - rewrite <- (py_str_str rt Hok d) at 1. apply user_prompt_document_type.
  - apply user_prompt_scenario.
Qed.

Lemma fields_reach_the_service_verbatim_witness :
  ∃ system user,
    messages
      (completion_request (system_prompt token_limit)
         (user_prompt demo_str (JStr (lit "무명 작가")) (JStr (lit "단문"))
            (lit "oo")))
    = [Message (lit "system") system; Message (lit "user") user]
    ∧ occurs_in (lit "무명 작가") user ∧ occurs_in (lit "단문") user
    ∧ occurs_in (lit "oo") user.
Proof.
  apply (fields_reach_the_service_verbatim demo_runtime [lit "바보"]
           (scenario_only (lit "oo")) (lit "무명 작가") (lit "단문") (lit "oo")
           _ demo_runtime_ok (scenario_only_parses _)).
  rewrite (run_parsed _ _ _ _ _ _ (scenario_only_parses _)).
  vm_compute. right. right. left.
Defined.

(** X16. With the author and the document type fixed, the user prompt
    determines the scenario: two scenarios that give the same user prompt
    are the same text. *)
Theorem user_prompt_determines_the_scenario
    (f : json → str) (a d : json) (s s' : str) :
  user_prompt f a d s = user_prompt f a d s' → s = s'.
Proof.
  unfold user_prompt. intros H.
  do 10 apply app_inv_head in H.
  apply app_inv_tail in H. exact H.
Qed.

Lemma user_prompt_determines_the_scenario_witness :
  lit "oo" = lit "oo".
Proof.
  apply (user_prompt_determines_the_scenario demo_str
           (JStr (lit "무명 작가")) (JStr (lit "단문")) (lit "oo") (lit "oo")).
  reflexivity.
Defined.

(** X17. The fields are not delimited in the user prompt: an author that
    ends in a line break and the document-type label followed by [d1],
    with document type [d2], gives the same prompt as the author alone
    with the document type [d1], a line break, the label and [d2]. *)
Theorem user_prompt_does_not_delimit_the_fields
    (f : json → str) (a d1 d2 s : str) :
  (∀ x, f (JStr x) = x) →
  user_prompt f (JStr (a ++ nl ++ lit "- 글의 종류: " ++ d1)) (JStr d2) s
  = user_prompt f (JStr a) (JStr (d1 ++ nl ++ lit "- 글의 종류: " ++ d2)) s.
Proof.
  intros Hf. unfold user_prompt. rewrite !Hf, <- !app_assoc. reflexivity.
Qed.

Lemma user_prompt_does_not_delimit_the_fields_witness :
  user_prompt demo_str
    (JStr (lit "김소월" ++ nl ++ lit "- 글의 종류: " ++ lit "시")) (JStr (lit "편지"))
    (lit "봄")
  = user_prompt demo_str
      (JStr (lit "김소월"))
      (JStr (lit "시" ++ nl ++ lit "- 글의 종류: " ++ lit "편지")) (lit "봄").
Proof.
  apply (user_prompt_does_not_delimit_the_fields demo_str
           (lit "김소월") (lit "시") (lit "편지") (lit "봄")).
  intros x. reflexivity.
Defined.

(** ** Logging *)

(** X18. The log levels of a run follow its outcome: an error record is
    written exactly when the answer has status 500, a warning exactly
    when the answer is a soft rejection (status 200 with
    [isSuccessful: false]), and the request record exactly when the
    payload parsed. *)
Theorem log_levels_follow_the_outcome
    (rt : runtime) (lexicon : list str) (req : request) :
  ∃ r,
    fst (run (generate_letter rt lexicon req)) = Done r
    ∧ (Log ERROR ∈ snd (run (generate_letter rt lexicon req))
       ↔ status r = 500%Z)
    ∧ (Log WARNING ∈ snd (run (generate_letter rt lexicon req))
       ↔ ∃ result, r = Response 200 (Envelope false result))
    ∧ (Log INFO ∈ snd (run (generate_letter rt lexicon req))
       ↔ ∃ a d sc, parses_to req a d sc).
Proof.
  destruct (parse_request_cases req) as [(e & He)|(a & d & sc & Hp)].
  - rewrite (run_unparsed _ _ _ _ He). eexists. split; [reflexivity|].
    split; [settle_log|]. split; [settle_log|].
    split; intros H; [in_trace H|].
    destruct H as (a & d & sc & Hp). unfold parses_to in Hp.
    rewrite He in Hp. discriminate Hp.
  - assert (∀ tr, Log INFO ∈ Log INFO :: tr
                  ↔ ∃ a d sc, parses_to req a d sc) as Hinfo.
    { intros tr. split; intros _; [exists a, d, sc; exact Hp|left]. }
    rewrite (run_parsed _ _ _ _ _ _ Hp).
    destruct sc as [| | | |s| |];
      try solve [eexists; split; [reflexivity|];
                 split; [settle_log|]; split; [settle_log|apply Hinfo]].
    destruct (re_search_letter s);
      [|solve [eexists; split; [reflexivity|];
               split; [settle_log|]; split; [settle_log|apply Hinfo]]].
    destruct (tagger_morphs rt s) as [tokens|e];
      [|solve [eexists; split; [reflexivity|];
               split; [settle_log|]; split; [settle_log|apply Hinfo]]].
    destruct (list_of_set rt _) as [|w ws];
      [|solve [eexists; split; [reflexivity|];
               split; [settle_log|]; split; [settle_log|apply Hinfo]]].
    destruct (consume _ _);
      eexists; (split; [reflexivity|]);
      (split; [settle_log|]); (split; [settle_log|apply Hinfo]).
Qed.

(** ** The tokenizer *)

(** X19. The tokenizer is called only on the scenario, and only once it
    passed the presence check: a tokenizer call in the trace is a call on
    the scenario string of the request, that string holds a Latin letter
    or a Hangul syllable, and the call is the only one. *)
Theorem tokenizer_is_called_only_on_a_valid_scenario
    (rt : runtime) (lexicon : list str) (req : request) (text : str) :
  Morphs text ∈ snd (run (generate_letter rt lexicon req)) →
  ∃ a d,
    parses_to req a d (JStr text)
    ∧ (∃ c, c ∈ text ∧ (latin_letter c ∨ hangul_syllable c))
    ∧ morphs_calls (snd (run (generate_letter rt lexicon req)))
      = [Morphs text].
Proof.
  destruct (parse_request_cases req) as [(e & He)|(a & d & sc & Hp)].
  - rewrite (run_unparsed _ _ _ _ He). intros Hin. in_trace Hin.
  - rewrite (run_parsed _ _ _ _ _ _ Hp).
    destruct sc as [| | | |s| |]; try solve [intros Hin; in_trace Hin].
    destruct (re_search_letter s) eqn:Hletter;
      [|solve [intros Hin; in_trace Hin]].
    assert (∀ tr, Morphs text ∈ Log INFO :: Morphs s :: tr →
                  (∀ c, c ∈ tr → is_morphs c = false) → text = s) as Htext.
    { intros tr H Htr.
      apply elem_of_cons in H as [H|H]; [discriminate H|].
      apply elem_of_cons in H as [H|H]; [injection H as ->; reflexivity|].
      apply Htr in H. discriminate H. }
    assert (∀ tr : list call,
              Forall (λ c, is_morphs c = false) tr →
              ∀ c, c ∈ tr → is_morphs c = false) as Hall
      by (intros tr Hf; apply Forall_forall, Hf).
    destruct (tagger_morphs rt s) as [tokens|e];
      [destruct (list_of_set rt _) as [|w ws];
         [destruct (consume _ _)|]|];
      intros Hin;
      (rewrite (Htext _ Hin) by (apply Hall; repeat constructor));
      exists a, d;
      (split; [exact Hp|]);
      (split; [apply re_search_letter_spec, Hletter|reflexivity]).
Qed.

Lemma tokenizer_is_called_only_on_a_valid_scenario_witness :
  ∃ a d,
    parses_to (scenario_only (lit "oo")) a d (JStr (lit "oo"))
    ∧ (∃ c, c ∈ lit "oo" ∧ (latin_letter c ∨ hangul_syllable c))
    ∧ morphs_calls (snd (run (generate_letter demo_runtime [lit "oo"]
                                (scenario_only (lit "oo")))))
      = [Morphs (lit "oo")].
Proof.
  apply (tokenizer_is_called_only_on_a_valid_scenario demo_runtime
           [lit "oo"] (scenario_only (lit "oo")) (lit "oo")).
  vm_compute. right. left.
Defined.

(** X20. An exception of the tokenizer fails the request: for a scenario
    with a letter on which the tokenizer raises, the handler answers 500
    with that exception, whatever the lexicon holds, and neither a
    rejection is sent nor the generation service called. *)
Theorem tokenizer_exception_fails_the_request
    (rt : runtime) (lexicon : list str) (req : request) (a d : json)
    (s : str) (e : exn) :
  parses_to req a d (JStr s) →
  (∃ c, c ∈ s ∧ (latin_letter c ∨ hangul_syllable c)) →
  tagger_morphs rt s = Raised e →
  run (generate_letter rt lexicon req)
  = (Done (Response 500 (ErrorBody e)), [Log INFO; Morphs s; Log ERROR]).
Proof.
  intros Hp Hletter Htok. apply re_search_letter_spec in Hletter.
  rewrite (run_parsed _ _ _ _ _ _ Hp), Hletter, Htok. reflexivity.
Qed.

Lemma tokenizer_exception_fails_the_request_witness :
  run (generate_letter demo_runtime [lit "바보"]
         (scenario_only (lit "바보" ++ [0xD800%N])))
  = (Done (Response 500 (ErrorBody UnicodeEncodeError)),
     [Log INFO; Morphs (lit "바보" ++ [0xD800%N]); Log ERROR]).
Proof.
  apply (tokenizer_exception_fails_the_request demo_runtime [lit "바보"]
           (scenario_only (lit "바보" ++ [0xD800%N]))
           (JStr (lit "무명 작가")) (JStr (lit "단문"))
           (lit "바보" ++ [0xD800%N]) UnicodeEncodeError
           (scenario_only_parses _)).
  - exists 48148%N. split; [vm_compute; left|].
    right. unfold hangul_syllable. lia.
  - vm_compute. reflexivity.
Defined.
